(** * Clinic front-end: consultation workbench and API client

    A shallow embedding of the consultation page component (prescription
    line items, fee aggregation, the three-call save sequence) and of the
    axios client set-up (401 refresh interceptor, phone masking), followed by
    the properties established about them.

    Conventions of the embedding:
    - a JavaScript [number] holding money, stock or a dosage is an IEEE-754
      binary64 value, Rocq's primitive [float]; entity ids, which the backend
      delivers as integral primary keys, are [Z], and [===] on them is [Z.eqb];
    - a JavaScript string is the list of its UTF-16 code units;
    - each React [useState] cell and each zustand store entry is a field of one
      state record; an event handler is a function on that record, reading the
      values of the render it closes over and applying its setter calls in
      program order;
    - a thrown exception or rejected promise is [None] (or an explicit
      rejection value where the code goes on to inspect it). *)

From Stdlib Require Import List ZArith NArith Bool Ascii String Lia.
From Stdlib Require Import Uint63 PrimFloat.
From Stdlib Require Floats.
Import ListNotations.

#[local] Open Scope Z_scope.

(* ================================================================= *)
(** ** JavaScript values *)

Module Js.

Definition code_unit := N.
Definition jsstring := list code_unit.

(** Source literals are written as Rocq strings, i.e. UTF-8 bytes; [utf16]
    turns the bytes into the code units the JavaScript engine holds. *)
Fixpoint utf16 (bs : list N) : jsstring :=
  match bs with
  | [] => []
  | b :: r =>
    if (b <? 128)%N then b :: utf16 r
    else if (b <? 224)%N then
      match r with
      | c :: r1 => ((b mod 32) * 64 + c mod 64)%N :: utf16 r1
      | [] => []
      end
    else if (b <? 240)%N then
      match r with
      | c :: d :: r2 =>
        ((b mod 16) * 4096 + (c mod 64) * 64 + d mod 64)%N :: utf16 r2
      | _ => []
      end
    else
      match r with
      | c :: d :: e :: r3 =>
        let cp := ((b mod 8) * 262144 + (c mod 64) * 4096
                   + (d mod 64) * 64 + e mod 64 - 65536)%N in
        (55296 + cp / 1024)%N :: (56320 + cp mod 1024)%N :: utf16 r3
      | _ => []
      end
  end.

Definition js (s : string) : jsstring :=
  utf16 (map N_of_ascii (list_ascii_of_string s)).

Definition code_unit_eqb : code_unit -> code_unit -> bool := N.eqb.

Fixpoint jsstring_eqb (a b : jsstring) : bool :=
  match a, b with
  | [], [] => true
  | x :: a1, y :: b1 => code_unit_eqb x y && jsstring_eqb a1 b1
  | _, _ => false
  end.

(** [s.startsWith(p)] *)
Fixpoint startsWith (s p : jsstring) : bool :=
  match p, s with
  | [], _ => true
  | y :: p1, x :: s1 => code_unit_eqb x y && startsWith s1 p1
  | _ :: _, [] => false
  end.

(** [s.includes(p)]: [p] occurs in [s] as a contiguous run of code units. *)
Fixpoint includes (s p : jsstring) : bool :=
  startsWith s p ||
  match s with
  | [] => false
  | _ :: s1 => includes s1 p
  end.

(** [s.slice(start, end)] for [0 <= start <= end]; bounds beyond the length
    are clamped, as the engine does. *)
Definition slice (s : jsstring) (start stop : nat) : jsstring :=
  firstn (stop - start) (skipn start s).

(** [s.slice(-k)] for [k > 0]: the last [k] code units (all of [s] when it is
    shorter). *)
Definition slice_last (s : jsstring) (k : nat) : jsstring :=
  skipn (List.length s - k) s.

(** [c.repeat(count)]: a [RangeError] is thrown for a negative count. *)
Definition repeat (c : jsstring) (count : Z) : option jsstring :=
  if count <? 0 then None
  else Some (List.concat (List.repeat c (Z.to_nat count))).

(** Truthiness of a string: the empty string is falsy. *)
Definition truthy_string (s : jsstring) : bool :=
  match s with [] => false | _ :: _ => true end.

(** Truthiness of an optional string ([string | null | undefined]). *)
Definition truthy_ostring (o : option jsstring) : bool :=
  match o with Some s => truthy_string s | None => false end.

Definition number := float.

(** Truthiness of a number: [NaN], [0] and [-0] are falsy. *)
Definition truthy_number (x : number) : bool :=
  negb (is_nan x || is_zero x).

(** [x || 0] on numbers. *)
Definition or_zero (x : number) : number :=
  if truthy_number x then x else 0%float.

(** Truthiness of an integral id that may be [null]: [null] and [0] are
    falsy. *)
Definition truthy_id (o : option Z) : bool :=
  match o with Some i => negb (i =? 0) | None => false end.

(** The number behind an id that has been tested truthy. *)
Definition id_value (o : option Z) : Z :=
  match o with Some i => i | None => 0 end.

(** Built-ins of the engine that the code calls and whose tables are not part
    of this repository: the decimal parser and Unicode case mapping. *)
Class JsRuntime := {
  parseFloat : jsstring -> number;
  toLowerCase : jsstring -> jsstring
}.

End Js.

Import Js.

(* ================================================================= *)
(** ** Consultation workbench page: data *)

Module Workbench.

#[local] Open Scope float_scope.

Record PatientInfo := {
  p_id : Z;
  p_name : jsstring;
  p_chart_number : jsstring;
  p_gender : jsstring;
  p_birth_date : jsstring;
  p_phone : option jsstring;
  p_allergies : option jsstring
}.

Record QueuePatient := {
  q_id : Z;
  queue_number : Z;
  patient : PatientInfo;
  visit_type : jsstring;
  status : jsstring;
  doctor_name : option jsstring
}.

Record PrescriptionItem := {
  item_id : option Z;
  medicine_id : Z;
  medicine_name : jsstring;
  medicine_code : jsstring;
  dosage : number;
  unit : jsstring;
  unit_price : number;
  subtotal : number;
  stock_quantity : option number;
  is_compound : option bool
}.

Record FormulaItem := {
  fi_medicine_id : Z;
  fi_medicine_name : jsstring;
  fi_medicine_code : jsstring;
  fi_dosage : number;
  fi_unit : jsstring
}.

Record ExperienceFormula := {
  f_id : Z;
  f_name : jsstring;
  f_description : jsstring;
  f_items : list FormulaItem
}.

Record HistoryRecord := {
  h_id : Z;
  h_date : jsstring;
  h_chief_complaint : jsstring;
  h_tcm_diagnosis : jsstring;
  h_prescription_count : Z
}.

Inductive PharmacyType := decoction | concentrated.

Record ExternalPharmacy := {
  ph_id : Z;
  ph_name : jsstring;
  ph_type : PharmacyType;
  processing_fee : number;
  delivery_fee : number
}.

Inductive DispensingMethod :=
  internal | external_decoction | external_concentrated.

Definition is_internal (m : DispensingMethod) : bool :=
  match m with internal => true | _ => false end.

(** An entry of [medicineResults], as the medicine search returns it. *)
Record Medicine := {
  m_id : Z;
  m_code : jsstring;
  m_name : jsstring;
  m_unit : jsstring;
  selling_price : jsstring;
  current_stock : number;
  m_is_compound : bool
}.

Record PrescriptionSettings := {
  total_doses : Z;
  doses_per_day : Z;
  days : Z;
  ps_name : jsstring
}.

Record Charge := {
  charge_name : jsstring;
  amount : number
}.

Record ConsultationForm := {
  chief_complaint : jsstring;
  present_illness : jsstring;
  inspection : jsstring;
  tongue_appearance : jsstring;
  pulse : jsstring;
  tcm_diagnosis : jsstring;
  syndrome_differentiation : jsstring;
  treatment_principle : jsstring;
  advice : jsstring
}.

Definition emptyForm : ConsultationForm :=
  {| chief_complaint := []; present_illness := []; inspection := [];
     tongue_appearance := []; pulse := []; tcm_diagnosis := [];
     syndrome_differentiation := []; treatment_principle := [];
     advice := [] |}.

(** The object the page hands to the consultation store's
    [setCurrentPatient]. *)
Record CurrentPatient := {
  cp_id : Z;
  cp_name : jsstring;
  cp_chart_number : jsstring;
  cp_gender : jsstring;
  cp_birth_date : jsstring;
  cp_registration_id : Z;
  cp_allergies : option jsstring
}.

Inductive NotificationType := NSuccess | NError | NWarning | NInfo.

(** What [addNotification] is called with.  The store adds a random id and a
    removal timer; [notifications] below keeps the notifications in the order
    they were raised. *)
Record Notification := {
  n_type : NotificationType;
  n_title : jsstring;
  n_message : option jsstring
}.

(** The [useState] cells of the page, followed by the entries of the
    consultation store and of the notification store. *)
Record PageState := {
  queue : list QueuePatient;
  loading : bool;
  saving : bool;
  prescriptionItems : list PrescriptionItem;
  medicineSearch : jsstring;
  medicineResults : list Medicine;
  dispensingMethod : DispensingMethod;
  externalPharmacies : list ExternalPharmacy;
  selectedPharmacy : option Z;
  prescriptionSettings : PrescriptionSettings;
  showFormulaModal : bool;
  historyRecords : list HistoryRecord;
  loadingHistory : bool;
  showAllergyWarning : bool;
  allergyMessage : jsstring;
  additionalCharges : list Charge;
  consultationForm : ConsultationForm;
  currentPatient : option CurrentPatient;
  currentRegistrationId : option Z;
  currentConsultationId : option Z;
  notifications : list Notification
}.

Definition initialState : PageState :=
  {| queue := []; loading := true; saving := false;
     prescriptionItems := []; medicineSearch := []; medicineResults := [];
     dispensingMethod := internal; externalPharmacies := [];
     selectedPharmacy := None;
     prescriptionSettings :=
       {| total_doses := 7; doses_per_day := 3; days := 7;
          ps_name := js "處方" |};
     showFormulaModal := false; historyRecords := [];
     loadingHistory := false; showAllergyWarning := false;
     allergyMessage := []; additionalCharges := [];
     consultationForm := emptyForm; currentPatient := None;
     currentRegistrationId := None; currentConsultationId := None;
     notifications := [] |}.

(** *** Setters *)

Definition setQueue (v : list QueuePatient) (s : PageState) : PageState :=
  {| queue := v; loading := loading s; saving := saving s;
     prescriptionItems := prescriptionItems s;
     medicineSearch := medicineSearch s; medicineResults := medicineResults s;
     dispensingMethod := dispensingMethod s;
     externalPharmacies := externalPharmacies s;
     selectedPharmacy := selectedPharmacy s;
     prescriptionSettings := prescriptionSettings s;
     showFormulaModal := showFormulaModal s;
     historyRecords := historyRecords s; loadingHistory := loadingHistory s;
     showAllergyWarning := showAllergyWarning s;
     allergyMessage := allergyMessage s;
     additionalCharges := additionalCharges s;
     consultationForm := consultationForm s;
     currentPatient := currentPatient s;
     currentRegistrationId := currentRegistrationId s;
     currentConsultationId := currentConsultationId s;
     notifications := notifications s |}.

Definition setLoading (v : bool) (s : PageState) : PageState :=
  {| queue := queue s; loading := v; saving := saving s;
     prescriptionItems := prescriptionItems s;
     medicineSearch := medicineSearch s; medicineResults := medicineResults s;
     dispensingMethod := dispensingMethod s;
     externalPharmacies := externalPharmacies s;
     selectedPharmacy := selectedPharmacy s;
     prescriptionSettings := prescriptionSettings s;
     showFormulaModal := showFormulaModal s;
     historyRecords := historyRecords s; loadingHistory := loadingHistory s;
     showAllergyWarning := showAllergyWarning s;
     allergyMessage := allergyMessage s;
     additionalCharges := additionalCharges s;
     consultationForm := consultationForm s;
     currentPatient := currentPatient s;
     currentRegistrationId := currentRegistrationId s;
     currentConsultationId := currentConsultationId s;
     notifications := notifications s |}.

Definition setSaving (v : bool) (s : PageState) : PageState :=
  {| queue := queue s; loading := loading s; saving := v;
     prescriptionItems := prescriptionItems s;
     medicineSearch := medicineSearch s; medicineResults := medicineResults s;
     dispensingMethod := dispensingMethod s;
     externalPharmacies := externalPharmacies s;
     selectedPharmacy := selectedPharmacy s;
     prescriptionSettings := prescriptionSettings s;
     showFormulaModal := showFormulaModal s;
     historyRecords := historyRecords s; loadingHistory := loadingHistory s;
     showAllergyWarning := showAllergyWarning s;
     allergyMessage := allergyMessage s;
     additionalCharges := additionalCharges s;
     consultationForm := consultationForm s;
     currentPatient := currentPatient s;
     currentRegistrationId := currentRegistrationId s;
     currentConsultationId := currentConsultationId s;
     notifications := notifications s |}.

Definition setPrescriptionItems (v : list PrescriptionItem) (s : PageState)
  : PageState :=
  {| queue := queue s; loading := loading s; saving := saving s;
     prescriptionItems := v; medicineSearch := medicineSearch s;
     medicineResults := medicineResults s;
     dispensingMethod := dispensingMethod s;
     externalPharmacies := externalPharmacies s;
     selectedPharmacy := selectedPharmacy s;
     prescriptionSettings := prescriptionSettings s;
     showFormulaModal := showFormulaModal s;
     historyRecords := historyRecords s; loadingHistory := loadingHistory s;
     showAllergyWarning := showAllergyWarning s;
     allergyMessage := allergyMessage s;
     additionalCharges := additionalCharges s;
     consultationForm := consultationForm s;
     currentPatient := currentPatient s;
     currentRegistrationId := currentRegistrationId s;
     currentConsultationId := currentConsultationId s;
     notifications := notifications s |}.

Definition setMedicineSearch (v : jsstring) (s : PageState) : PageState :=
  {| queue := queue s; loading := loading s; saving := saving s;
     prescriptionItems := prescriptionItems s; medicineSearch := v;
     medicineResults := medicineResults s;
     dispensingMethod := dispensingMethod s;
     externalPharmacies := externalPharmacies s;
     selectedPharmacy := selectedPharmacy s;
     prescriptionSettings := prescriptionSettings s;
     showFormulaModal := showFormulaModal s;
     historyRecords := historyRecords s; loadingHistory := loadingHistory s;
     showAllergyWarning := showAllergyWarning s;
     allergyMessage := allergyMessage s;
     additionalCharges := additionalCharges s;
     consultationForm := consultationForm s;
     currentPatient := currentPatient s;
     currentRegistrationId := currentRegistrationId s;
     currentConsultationId := currentConsultationId s;
     notifications := notifications s |}.

Definition setMedicineResults (v : list Medicine) (s : PageState)
  : PageState :=
  {| queue := queue s; loading := loading s; saving := saving s;
     prescriptionItems := prescriptionItems s;
     medicineSearch := medicineSearch s; medicineResults := v;
     dispensingMethod := dispensingMethod s;
     externalPharmacies := externalPharmacies s;
     selectedPharmacy := selectedPharmacy s;
     prescriptionSettings := prescriptionSettings s;
     showFormulaModal := showFormulaModal s;
     historyRecords := historyRecords s; loadingHistory := loadingHistory s;
     showAllergyWarning := showAllergyWarning s;
     allergyMessage := allergyMessage s;
     additionalCharges := additionalCharges s;
     consultationForm := consultationForm s;
     currentPatient := currentPatient s;
     currentRegistrationId := currentRegistrationId s;
     currentConsultationId := currentConsultationId s;
     notifications := notifications s |}.

Definition setDispensingMethod (v : DispensingMethod) (s : PageState)
  : PageState :=
  {| queue := queue s; loading := loading s; saving := saving s;
     prescriptionItems := prescriptionItems s;
     medicineSearch := medicineSearch s; medicineResults := medicineResults s;
     dispensingMethod := v; externalPharmacies := externalPharmacies s;
     selectedPharmacy := selectedPharmacy s;
     prescriptionSettings := prescriptionSettings s;
     showFormulaModal := showFormulaModal s;
     historyRecords := historyRecords s; loadingHistory := loadingHistory s;
     showAllergyWarning := showAllergyWarning s;
     allergyMessage := allergyMessage s;
     additionalCharges := additionalCharges s;
     consultationForm := consultationForm s;
     currentPatient := currentPatient s;
     currentRegistrationId := currentRegistrationId s;
     currentConsultationId := currentConsultationId s;
     notifications := notifications s |}.

Definition setExternalPharmacies (v : list ExternalPharmacy) (s : PageState)
  : PageState :=
  {| queue := queue s; loading := loading s; saving := saving s;
     prescriptionItems := prescriptionItems s;
     medicineSearch := medicineSearch s; medicineResults := medicineResults s;
     dispensingMethod := dispensingMethod s; externalPharmacies := v;
     selectedPharmacy := selectedPharmacy s;
     prescriptionSettings := prescriptionSettings s;
     showFormulaModal := showFormulaModal s;
     historyRecords := historyRecords s; loadingHistory := loadingHistory s;
     showAllergyWarning := showAllergyWarning s;
     allergyMessage := allergyMessage s;
     additionalCharges := additionalCharges s;
     consultationForm := consultationForm s;
     currentPatient := currentPatient s;
     currentRegistrationId := currentRegistrationId s;
     currentConsultationId := currentConsultationId s;
     notifications := notifications s |}.

Definition setSelectedPharmacy (v : option Z) (s : PageState) : PageState :=
  {| queue := queue s; loading := loading s; saving := saving s;
     prescriptionItems := prescriptionItems s;
     medicineSearch := medicineSearch s; medicineResults := medicineResults s;
     dispensingMethod := dispensingMethod s;
     externalPharmacies := externalPharmacies s; selectedPharmacy := v;
     prescriptionSettings := prescriptionSettings s;
     showFormulaModal := showFormulaModal s;
     historyRecords := historyRecords s; loadingHistory := loadingHistory s;
     showAllergyWarning := showAllergyWarning s;
     allergyMessage := allergyMessage s;
     additionalCharges := additionalCharges s;
     consultationForm := consultationForm s;
     currentPatient := currentPatient s;
     currentRegistrationId := currentRegistrationId s;
     currentConsultationId := currentConsultationId s;
     notifications := notifications s |}.

Definition setShowFormulaModal (v : bool) (s : PageState) : PageState :=
  {| queue := queue s; loading := loading s; saving := saving s;
     prescriptionItems := prescriptionItems s;
     medicineSearch := medicineSearch s; medicineResults := medicineResults s;
     dispensingMethod := dispensingMethod s;
     externalPharmacies := externalPharmacies s;
     selectedPharmacy := selectedPharmacy s;
     prescriptionSettings := prescriptionSettings s; showFormulaModal := v;
     historyRecords := historyRecords s; loadingHistory := loadingHistory s;
     showAllergyWarning := showAllergyWarning s;
     allergyMessage := allergyMessage s;
     additionalCharges := additionalCharges s;
     consultationForm := consultationForm s;
     currentPatient := currentPatient s;
     currentRegistrationId := currentRegistrationId s;
     currentConsultationId := currentConsultationId s;
     notifications := notifications s |}.

Definition setHistoryRecords (v : list HistoryRecord) (s : PageState)
  : PageState :=
  {| queue := queue s; loading := loading s; saving := saving s;
     prescriptionItems := prescriptionItems s;
     medicineSearch := medicineSearch s; medicineResults := medicineResults s;
     dispensingMethod := dispensingMethod s;
     externalPharmacies := externalPharmacies s;
     selectedPharmacy := selectedPharmacy s;
     prescriptionSettings := prescriptionSettings s;
     showFormulaModal := showFormulaModal s; historyRecords := v;
     loadingHistory := loadingHistory s;
     showAllergyWarning := showAllergyWarning s;
     allergyMessage := allergyMessage s;
     additionalCharges := additionalCharges s;
     consultationForm := consultationForm s;
     currentPatient := currentPatient s;
     currentRegistrationId := currentRegistrationId s;
     currentConsultationId := currentConsultationId s;
     notifications := notifications s |}.

Definition setLoadingHistory (v : bool) (s : PageState) : PageState :=
  {| queue := queue s; loading := loading s; saving := saving s;
     prescriptionItems := prescriptionItems s;
     medicineSearch := medicineSearch s; medicineResults := medicineResults s;
     dispensingMethod := dispensingMethod s;
     externalPharmacies := externalPharmacies s;
     selectedPharmacy := selectedPharmacy s;
     prescriptionSettings := prescriptionSettings s;
     showFormulaModal := showFormulaModal s;
     historyRecords := historyRecords s; loadingHistory := v;
     showAllergyWarning := showAllergyWarning s;
     allergyMessage := allergyMessage s;
     additionalCharges := additionalCharges s;
     consultationForm := consultationForm s;
     currentPatient := currentPatient s;
     currentRegistrationId := currentRegistrationId s;
     currentConsultationId := currentConsultationId s;
     notifications := notifications s |}.

Definition setShowAllergyWarning (v : bool) (s : PageState) : PageState :=
  {| queue := queue s; loading := loading s; saving := saving s;
     prescriptionItems := prescriptionItems s;
     medicineSearch := medicineSearch s; medicineResults := medicineResults s;
     dispensingMethod := dispensingMethod s;
     externalPharmacies := externalPharmacies s;
     selectedPharmacy := selectedPharmacy s;
     prescriptionSettings := prescriptionSettings s;
     showFormulaModal := showFormulaModal s;
     historyRecords := historyRecords s; loadingHistory := loadingHistory s;
     showAllergyWarning := v; allergyMessage := allergyMessage s;
     additionalCharges := additionalCharges s;
     consultationForm := consultationForm s;
     currentPatient := currentPatient s;
     currentRegistrationId := currentRegistrationId s;
     currentConsultationId := currentConsultationId s;
     notifications := notifications s |}.

Definition setAllergyMessage (v : jsstring) (s : PageState) : PageState :=
  {| queue := queue s; loading := loading s; saving := saving s;
     prescriptionItems := prescriptionItems s;
     medicineSearch := medicineSearch s; medicineResults := medicineResults s;
     dispensingMethod := dispensingMethod s;
     externalPharmacies := externalPharmacies s;
     selectedPharmacy := selectedPharmacy s;
     prescriptionSettings := prescriptionSettings s;
     showFormulaModal := showFormulaModal s;
     historyRecords := historyRecords s; loadingHistory := loadingHistory s;
     showAllergyWarning := showAllergyWarning s; allergyMessage := v;
     additionalCharges := additionalCharges s;
     consultationForm := consultationForm s;
     currentPatient := currentPatient s;
     currentRegistrationId := currentRegistrationId s;
     currentConsultationId := currentConsultationId s;
     notifications := notifications s |}.

Definition setAdditionalCharges (v : list Charge) (s : PageState)
  : PageState :=
  {| queue := queue s; loading := loading s; saving := saving s;
     prescriptionItems := prescriptionItems s;
     medicineSearch := medicineSearch s; medicineResults := medicineResults s;
     dispensingMethod := dispensingMethod s;
     externalPharmacies := externalPharmacies s;
     selectedPharmacy := selectedPharmacy s;
     prescriptionSettings := prescriptionSettings s;
     showFormulaModal := showFormulaModal s;
     historyRecords := historyRecords s; loadingHistory := loadingHistory s;
     showAllergyWarning := showAllergyWarning s;
     allergyMessage := allergyMessage s; additionalCharges := v;
     consultationForm := consultationForm s;
     currentPatient := currentPatient s;
     currentRegistrationId := currentRegistrationId s;
     currentConsultationId := currentConsultationId s;
     notifications := notifications s |}.

Definition setConsultationForm (v : ConsultationForm) (s : PageState)
  : PageState :=
  {| queue := queue s; loading := loading s; saving := saving s;
     prescriptionItems := prescriptionItems s;
     medicineSearch := medicineSearch s; medicineResults := medicineResults s;
     dispensingMethod := dispensingMethod s;
     externalPharmacies := externalPharmacies s;
     selectedPharmacy := selectedPharmacy s;
     prescriptionSettings := prescriptionSettings s;
     showFormulaModal := showFormulaModal s;
     historyRecords := historyRecords s; loadingHistory := loadingHistory s;
     showAllergyWarning := showAllergyWarning s;
     allergyMessage := allergyMessage s;
     additionalCharges := additionalCharges s; consultationForm := v;
     currentPatient := currentPatient s;
     currentRegistrationId := currentRegistrationId s;
     currentConsultationId := currentConsultationId s;
     notifications := notifications s |}.

Definition setCurrentPatient (v : option CurrentPatient) (s : PageState)
  : PageState :=
  {| queue := queue s; loading := loading s; saving := saving s;
     prescriptionItems := prescriptionItems s;
     medicineSearch := medicineSearch s; medicineResults := medicineResults s;
     dispensingMethod := dispensingMethod s;
     externalPharmacies := externalPharmacies s;
     selectedPharmacy := selectedPharmacy s;
     prescriptionSettings := prescriptionSettings s;
     showFormulaModal := showFormulaModal s;
     historyRecords := historyRecords s; loadingHistory := loadingHistory s;
     showAllergyWarning := showAllergyWarning s;
     allergyMessage := allergyMessage s;
     additionalCharges := additionalCharges s;
     consultationForm := consultationForm s; currentPatient := v;
     currentRegistrationId := currentRegistrationId s;
     currentConsultationId := currentConsultationId s;
     notifications := notifications s |}.

Definition setCurrentRegistration (v : option Z) (s : PageState)
  : PageState :=
  {| queue := queue s; loading := loading s; saving := saving s;
     prescriptionItems := prescriptionItems s;
     medicineSearch := medicineSearch s; medicineResults := medicineResults s;
     dispensingMethod := dispensingMethod s;
     externalPharmacies := externalPharmacies s;
     selectedPharmacy := selectedPharmacy s;
     prescriptionSettings := prescriptionSettings s;
     showFormulaModal := showFormulaModal s;
     historyRecords := historyRecords s; loadingHistory := loadingHistory s;
     showAllergyWarning := showAllergyWarning s;
     allergyMessage := allergyMessage s;
     additionalCharges := additionalCharges s;
     consultationForm := consultationForm s;
     currentPatient := currentPatient s; currentRegistrationId := v;
     currentConsultationId := currentConsultationId s;
     notifications := notifications s |}.

Definition setNotifications (v : list Notification) (s : PageState)
  : PageState :=
  {| queue := queue s; loading := loading s; saving := saving s;
     prescriptionItems := prescriptionItems s;
     medicineSearch := medicineSearch s; medicineResults := medicineResults s;
     dispensingMethod := dispensingMethod s;
     externalPharmacies := externalPharmacies s;
     selectedPharmacy := selectedPharmacy s;
     prescriptionSettings := prescriptionSettings s;
     showFormulaModal := showFormulaModal s;
     historyRecords := historyRecords s; loadingHistory := loadingHistory s;
     showAllergyWarning := showAllergyWarning s;
     allergyMessage := allergyMessage s;
     additionalCharges := additionalCharges s;
     consultationForm := consultationForm s;
     currentPatient := currentPatient s;
     currentRegistrationId := currentRegistrationId s;
     currentConsultationId := currentConsultationId s; notifications := v |}.

(** Store actions. *)
Definition addNotification (n : Notification) (s : PageState) : PageState :=
  setNotifications (notifications s ++ [n]) s.

Definition clearConsultation (s : PageState) : PageState :=
  {| queue := queue s; loading := loading s; saving := saving s;
     prescriptionItems := prescriptionItems s;
     medicineSearch := medicineSearch s; medicineResults := medicineResults s;
     dispensingMethod := dispensingMethod s;
     externalPharmacies := externalPharmacies s;
     selectedPharmacy := selectedPharmacy s;
     prescriptionSettings := prescriptionSettings s;
     showFormulaModal := showFormulaModal s;
     historyRecords := historyRecords s; loadingHistory := loadingHistory s;
     showAllergyWarning := showAllergyWarning s;
     allergyMessage := allergyMessage s;
     additionalCharges := additionalCharges s;
     consultationForm := consultationForm s; currentPatient := None;
     currentRegistrationId := None; currentConsultationId := None;
     notifications := notifications s |}.

(* ================================================================= *)
(** ** Consultation workbench page: the backend and asynchronous handlers *)

Record PrescriptionItemPayload := {
  pl_medicine : Z;
  pl_dosage : number;
  pl_unit : jsstring;
  pl_unit_price : number
}.

Record PrescriptionData := {
  pd_consultation : Z;
  pd_name : jsstring;
  pd_total_doses : Z;
  pd_doses_per_day : Z;
  pd_days : Z;
  pd_dispensing_method : DispensingMethod;
  pd_items : list PrescriptionItemPayload;
  pd_external_pharmacy : option Z
}.

(** The calls the page makes through the [api] client. *)
Inductive ApiCall :=
| GetRegistrationsQueue
| GetExternalPharmacies
| GetConsultations (patient_id : Z) (limit : Z)
| PostConsultations (registration : Z) (form : ConsultationForm)
| PostPrescriptions (data : PrescriptionData)
| PostRegistrationComplete (registration : Z).

(** What the backend answers to each call; [None] is a rejected promise.  A
    consultation create answers with the id of the new record, the queue with
    its [waiting] and [in_consultation] lists. *)
Record Backend := {
  get_queue : option (list QueuePatient * list QueuePatient);
  get_external_pharmacies : option (list ExternalPharmacy);
  get_consultations : Z -> Z -> option (list HistoryRecord);
  post_consultations : Z -> ConsultationForm -> option Z;
  post_prescriptions : PrescriptionData -> option Datatypes.unit;
  post_registration_complete : Z -> option Datatypes.unit
}.

(** An asynchronous handler run to completion: it transforms the page state,
    extends the log of calls issued, and either returns or throws. *)
Definition Async (A : Type) : Type :=
  PageState * list ApiCall -> (PageState * list ApiCall) * option A.

Definition ret {A} (a : A) : Async A := fun w => (w, Some a).

Definition bind {A B} (m : Async A) (k : A -> Async B) : Async B :=
  fun w =>
    match m w with
    | (w1, Some a) => k a w1
    | (w1, None) => (w1, None)
    end.

Notation "x <- m ;; k" := (bind m (fun x => k))
  (at level 61, m at next level, right associativity).
Notation "m ;;; k" := (bind m (fun _ => k))
  (at level 61, right associativity).

(** A setter call. *)
Definition modify (f : PageState -> PageState) : Async Datatypes.unit :=
  fun w => ((f (fst w), snd w), Some tt).

(** [await api.get/post(...)]: the call is logged, then answered. *)
Definition await {A} (c : ApiCall) (answer : option A) : Async A :=
  fun w => ((fst w, snd w ++ [c]), answer).

(** [try { body } catch { handler } finally { cleanup }] *)
Definition try_catch_finally
  (body handler cleanup : Async Datatypes.unit) : Async Datatypes.unit :=
  fun w =>
    match body w with
    | (w1, Some _) => cleanup w1
    | (w1, None) => (handler ;;; cleanup) w1
    end.

Definition console_error : Async Datatypes.unit := ret tt.

Definition fetchQueue (b : Backend) : Async Datatypes.unit :=
  try_catch_finally
    (response <- await GetRegistrationsQueue (get_queue b) ;;
     let waitingList := fst response in
     let inConsultationList := snd response in
     modify (setQueue (waitingList ++ inConsultationList)))
    console_error
    (modify (setLoading false)).

Definition fetchExternalPharmacies (b : Backend) : Async Datatypes.unit :=
  try_catch_finally
    (response <- await GetExternalPharmacies (get_external_pharmacies b) ;;
     modify (setExternalPharmacies response))
    console_error
    (ret tt).

Definition fetchPatientHistory (b : Backend) (patientId : Z)
  : Async Datatypes.unit :=
  modify (setLoadingHistory true) ;;;
  try_catch_finally
    (response <- await (GetConsultations patientId 10)
                   (get_consultations b patientId 10) ;;
     modify (setHistoryRecords response))
    console_error
    (modify (setLoadingHistory false)).

Definition selectPatient (b : Backend) (p : QueuePatient)
  : Async Datatypes.unit :=
  (match p_allergies (patient p) with
   | Some a =>
     if truthy_string a then
       modify (setAllergyMessage a) ;;; modify (setShowAllergyWarning true)
     else ret tt
   | None => ret tt
   end) ;;;
  modify (setCurrentPatient (Some
    {| cp_id := p_id (patient p);
       cp_name := p_name (patient p);
       cp_chart_number := p_chart_number (patient p);
       cp_gender := p_gender (patient p);
       cp_birth_date := p_birth_date (patient p);
       cp_registration_id := q_id p;
       cp_allergies := p_allergies (patient p) |})) ;;;
  modify (setCurrentRegistration (Some (q_id p))) ;;;
  modify (setPrescriptionItems []) ;;;
  modify (setAdditionalCharges []) ;;;
  modify (setDispensingMethod internal) ;;;
  modify (setSelectedPharmacy None) ;;;
  modify (setConsultationForm emptyForm) ;;;
  fetchPatientHistory b (p_id (patient p)).

(* ================================================================= *)
(** ** Consultation workbench page: prescription handlers and totals *)

(** [updated[index] = x] on a copy of the array, for an index within it. *)
Fixpoint set_nth {A} (index : nat) (x : A) (l : list A) : list A :=
  match l, index with
  | [], _ => []
  | _ :: t, O => x :: t
  | h :: t, S j => h :: set_nth j x t
  end.

(** [l.filter((item, i) => keep item i)], the callback receiving positions
    counted from [i]. *)
Fixpoint filter_from {A} (i : nat) (keep : A -> nat -> bool) (l : list A)
  : list A :=
  match l with
  | [] => []
  | x :: t =>
    if keep x i then x :: filter_from (S i) keep t
    else filter_from (S i) keep t
  end.

Definition filter_indexed {A} (keep : A -> nat -> bool) (l : list A)
  : list A :=
  filter_from 0 keep l.

Section Handlers.

Context {rt : JsRuntime}.

Definition addMedicine (medicine : Medicine) (s : PageState) : PageState :=
  let existing :=
    find (fun item => Z.eqb (medicine_id item) (m_id medicine))
         (prescriptionItems s) in
  match existing with
  | Some _ =>
    addNotification
      {| n_type := NWarning; n_title := js "藥品已存在";
         n_message := Some (js "請直接修改劑量") |} s
  | None =>
    (* Check stock for internal dispensing *)
    if is_internal (dispensingMethod s) && (current_stock medicine <=? 0)
    then
      addNotification
        {| n_type := NError; n_title := js "庫存不足";
           n_message := Some (m_name medicine ++ js " 庫存不足，無法開立") |} s
    else
      (* Check for allergy *)
      let s1 :=
        match currentPatient s with
        | Some cp =>
          match cp_allergies cp with
          | Some a =>
            if truthy_string a then
              let allergies := toLowerCase a in
              if includes allergies (toLowerCase (m_name medicine)) then
                setShowAllergyWarning true
                  (setAllergyMessage
                     (js "警告：病患對 " ++ m_name medicine ++ js " 過敏！") s)
              else s
            else s
          | None => s
          end
        | None => s
        end in
      setMedicineResults []
        (setMedicineSearch []
           (setPrescriptionItems
              (prescriptionItems s ++
               [ {| item_id := None;
                    medicine_id := m_id medicine;
                    medicine_name := m_name medicine;
                    medicine_code := m_code medicine;
                    dosage := 1;
                    unit := m_unit medicine;
                    unit_price := or_zero (parseFloat (selling_price medicine));
                    subtotal := or_zero (parseFloat (selling_price medicine));
                    stock_quantity := Some (current_stock medicine);
                    is_compound := Some (m_is_compound medicine) |} ])
              s1))
  end.

(** The copy [updated] shares its item objects with [prescriptionItems];
    the two assignments write into the object at [index], and a missing
    object makes the first assignment throw a [TypeError] ([None]) before any
    setter runs. *)
Definition updateDosage (index : nat) (dosage : number) (s : PageState)
  : option PageState :=
  match nth_error (prescriptionItems s) index with
  | None => None
  | Some item =>
    let item1 :=
      {| item_id := item_id item;
         medicine_id := medicine_id item;
         medicine_name := medicine_name item;
         medicine_code := medicine_code item;
         dosage := dosage;
         unit := unit item;
         unit_price := unit_price item;
         subtotal := dosage * unit_price item;
         stock_quantity := stock_quantity item;
         is_compound := is_compound item |} in
    Some (setPrescriptionItems (set_nth index item1 (prescriptionItems s)) s)
  end.

Definition removeMedicine (index : nat) (s : PageState) : PageState :=
  setPrescriptionItems
    (filter_indexed (fun _ i => negb (Nat.eqb i index)) (prescriptionItems s))
    s.

Definition applyExperienceFormula (formula : ExperienceFormula)
  (s : PageState) : PageState :=
  let newItems :=
    map (fun item =>
           {| item_id := None;
              medicine_id := fi_medicine_id item;
              medicine_name := fi_medicine_name item;
              medicine_code := fi_medicine_code item;
              dosage := fi_dosage item;
              unit := fi_unit item;
              unit_price := 0; (* Will be fetched from medicine data *)
              subtotal := 0;
              stock_quantity := None;
              is_compound := None |})
        (f_items formula) in
  addNotification
    {| n_type := NSuccess; n_title := js "經驗方已套用";
       n_message := Some (js "已套用「" ++ f_name formula ++ js "」") |}
    (setShowFormulaModal false
       (setPrescriptionItems (prescriptionItems s ++ newItems) s)).

(** [prompt] answers are the two optional strings. *)
Definition addAdditionalCharge (name amountStr : option jsstring)
  (s : PageState) : PageState :=
  match name with
  | None => s
  | Some name =>
    if negb (truthy_string name) then s
    else
      let amount :=
        parseFloat (if truthy_ostring amountStr
                    then match amountStr with Some a => a | None => [] end
                    else js "0") in
      if amount <=? 0 then s
      else
        setAdditionalCharges
          (additionalCharges s ++ [ {| charge_name := name; amount := amount |} ])
          s
  end.

Definition removeAdditionalCharge (index : nat) (s : PageState) : PageState :=
  setAdditionalCharges
    (filter_indexed (fun _ i => negb (Nat.eqb i index)) (additionalCharges s))
    s.

Definition saveConsultation (b : Backend) : Async Datatypes.unit :=
  fun w =>
  let s := fst w in
  if negb (truthy_id (currentRegistrationId s)) then
    modify (addNotification
              {| n_type := NError; n_title := js "請先選擇病患";
                 n_message := None |}) w
  else
    let registration := id_value (currentRegistrationId s) in
    (modify (setSaving true) ;;;
     try_catch_finally
       ((* Create consultation *)
        consultationRes <-
          await (PostConsultations registration (consultationForm s))
            (post_consultations b registration (consultationForm s)) ;;
        (* Create prescription if there are items *)
        (if (0 <? List.length (prescriptionItems s))%nat then
           let prescriptionData :=
             {| pd_consultation := consultationRes;
                pd_name := ps_name (prescriptionSettings s);
                pd_total_doses := total_doses (prescriptionSettings s);
                pd_doses_per_day := doses_per_day (prescriptionSettings s);
                pd_days := days (prescriptionSettings s);
                pd_dispensing_method := dispensingMethod s;
                pd_items :=
                  map (fun item =>
                         {| pl_medicine := medicine_id item;
                            pl_dosage := dosage item;
                            pl_unit := unit item;
                            pl_unit_price := unit_price item |})
                      (prescriptionItems s);
                pd_external_pharmacy :=
                  if negb (is_internal (dispensingMethod s))
                     && truthy_id (selectedPharmacy s)
                  then selectedPharmacy s else None |} in
           await (PostPrescriptions prescriptionData)
             (post_prescriptions b prescriptionData)
         else ret tt) ;;;
        (* Complete registration *)
        await (PostRegistrationComplete registration)
          (post_registration_complete b registration) ;;;
        modify (addNotification
                  {| n_type := NSuccess; n_title := js "診療記錄已儲存";
                     n_message := Some (js "病患已完成診療") |}) ;;;
        (* Clear and refresh *)
        modify clearConsultation ;;;
        modify (setPrescriptionItems []) ;;;
        modify (setAdditionalCharges []) ;;;
        modify (setHistoryRecords []) ;;;
        fetchQueue b)
       (modify (addNotification
                  {| n_type := NError; n_title := js "儲存失敗";
                     n_message := Some (js "請檢查資料後重試") |}))
       (modify (setSaving false))) w.

(** *** Calculate totals *)

Definition medicineTotal (s : PageState) : number :=
  fold_left (fun sum item => sum + subtotal item) (prescriptionItems s) 0.

Definition additionalTotal (s : PageState) : number :=
  fold_left (fun sum item => sum + amount item) (additionalCharges s) 0.

Definition selectedPharmacyData (s : PageState) : option ExternalPharmacy :=
  find (fun p =>
          match selectedPharmacy s with
          | Some i => Z.eqb (ph_id p) i
          | None => false
          end)
       (externalPharmacies s).

Definition processingFee (s : PageState) : number :=
  if negb (is_internal (dispensingMethod s)) then
    match selectedPharmacyData s with
    | Some p => processing_fee p
    | None => 0
    end
  else 0.

Definition deliveryFee (s : PageState) : number :=
  if negb (is_internal (dispensingMethod s)) then
    match selectedPharmacyData s with
    | Some p => delivery_fee p
    | None => 0
    end
  else 0.

Definition totalAmount (s : PageState) : number :=
  medicineTotal s + additionalTotal s + processingFee s + deliveryFee s.

End Handlers.

(* ================================================================= *)
(** ** Consultation workbench page: user actions on the line-item list *)

(** The operations a user has on the prescription list.  A handler that
    throws leaves the state of the last render in place. *)
Inductive Action :=
| AddMedicine (medicine : Medicine)
| UpdateDosage (index : nat) (dosage : number)
| RemoveMedicine (index : nat)
| ApplyExperienceFormula (formula : ExperienceFormula)
| SelectPatient (b : Backend) (p : QueuePatient).

Definition step {rt : JsRuntime} (a : Action) (s : PageState) : PageState :=
  match a with
  | AddMedicine medicine => addMedicine medicine s
  | UpdateDosage index dosage =>
    match updateDosage index dosage s with
    | Some s1 => s1
    | None => s
    end
  | RemoveMedicine index => removeMedicine index s
  | ApplyExperienceFormula formula => applyExperienceFormula formula s
  | SelectPatient b p => fst (fst (selectPatient b p (s, [])))
  end.

Definition run {rt : JsRuntime} (actions : list Action) (s : PageState)
  : PageState :=
  fold_left (fun s a => step a s) actions s.

Inductive reachable {rt : JsRuntime} : PageState -> Prop :=
| reachable_initial : reachable initialState
| reachable_step a s : reachable s -> reachable (step a s).

End Workbench.

(* ================================================================= *)
(** ** API client: phone masking and the interceptors *)

Module Api.

(** Phone masking.  [None] is the [RangeError] of [repeat]. *)
Definition maskPhone (phone : jsstring) : option jsstring :=
  if negb (truthy_string phone) || (List.length phone <? 4)%nat then Some phone
  else
    match repeat (js "*") (Z.of_nat (List.length phone) - 7) with
    | Some stars => Some (slice phone 0 4 ++ stars ++ slice_last phone 3)
    | None => None
    end.

(** ID card masking, the sibling of [maskPhone]. *)
Definition maskIdCard (idCard : jsstring) : option jsstring :=
  if negb (truthy_string idCard) || (List.length idCard <? 4)%nat
  then Some idCard
  else
    match repeat (js "*") (Z.of_nat (List.length idCard) - 4) with
    | Some stars => Some (slice idCard 0 2 ++ stars ++ slice_last idCard 2)
    | None => None
    end.

(** The two [localStorage] entries the client works with. *)
Record LocalStorage := {
  access_token : option jsstring;
  refresh_token : option jsstring
}.

(** A request configuration: target, body, the [Authorization] header and the
    client's own [_retry] mark. *)
Record RequestConfig := {
  url : jsstring;
  body : jsstring;
  authorization : option jsstring;
  _retry : bool
}.

Record AxiosResponse := {
  r_status : Z;
  r_data : jsstring
}.

(** [response_status] is [error.response?.status]. *)
Record AxiosError := {
  config : RequestConfig;
  response_status : option Z
}.

Inductive Outcome :=
| Resolved (response : AxiosResponse)
| Rejected (error : AxiosError).

(** What leaves the browser: a request of the [api] instance, or the refresh
    post made with plain [axios]. *)
Inductive NetCall :=
| Request (config : RequestConfig)
| TokenRefresh (refresh : jsstring).

Record Browser := {
  localStorage : LocalStorage;
  location_href : jsstring;
  sent : list NetCall
}.

(** The server side.  A request is answered with a response or fails with an
    optional status; a refresh post is rejected ([None]) or answered with a
    body whose [access] field may be missing.  Answers may depend on what
    was sent before. *)
Record Network := {
  respond : list NetCall -> RequestConfig -> AxiosResponse + option Z;
  refresh_answer : list NetCall -> jsstring -> option (option jsstring)
}.

(** String conversion of a possibly undefined string. *)
Definition to_string (v : option jsstring) : jsstring :=
  match v with Some x => x | None => js "undefined" end.

Definition send (c : NetCall) (br : Browser) : Browser :=
  {| localStorage := localStorage br;
     location_href := location_href br;
     sent := sent br ++ [c] |}.

(** Request interceptor - add auth token *)
Definition requestInterceptor (br : Browser) (config : RequestConfig)
  : RequestConfig :=
  let token := access_token (localStorage br) in
  if truthy_ostring token then
    {| url := url config; body := body config;
       authorization := Some (js "Bearer " ++ to_string token);
       _retry := _retry config |}
  else config.

(** Response interceptor - handle token refresh.  [api] is the client
    instance the handler calls for the retry. *)
Definition responseInterceptor (net : Network)
  (api : RequestConfig -> Browser -> option (Browser * Outcome))
  (error : AxiosError) (br : Browser) : option (Browser * Outcome) :=
  let originalRequest := config error in
  (* If 401 and not already retrying, try to refresh token *)
  if match response_status error with Some st => st =? 401 | None => false end
     && negb (_retry originalRequest)
  then
    let originalRequest :=
      {| url := url originalRequest; body := body originalRequest;
         authorization := authorization originalRequest;
         _retry := true |} in
    let error :=
      {| config := originalRequest;
         response_status := response_status error |} in
    let refreshToken := refresh_token (localStorage br) in
    if truthy_ostring refreshToken then
      let br1 := send (TokenRefresh (to_string refreshToken)) br in
      match refresh_answer net (sent br) (to_string refreshToken) with
      | Some access =>
        let br2 :=
          {| localStorage :=
               {| access_token := Some (to_string access);
                  refresh_token := refresh_token (localStorage br1) |};
             location_href := location_href br1;
             sent := sent br1 |} in
        let originalRequest :=
          {| url := url originalRequest; body := body originalRequest;
             authorization := Some (js "Bearer " ++ to_string access);
             _retry := _retry originalRequest |} in
        api originalRequest br2
      | None =>
        (* Refresh failed, clear tokens and redirect to login *)
        Some ({| localStorage :=
                   {| access_token := None; refresh_token := None |};
                 location_href := js "/login";
                 sent := sent br1 |},
              Rejected error)
      end
    else Some (br, Rejected error)
  else Some (br, Rejected error).

(** A call of the [api] instance: request interceptor, transport, response
    interceptors.  [fuel] bounds the nesting of calls made from the response
    interceptor. *)
Fixpoint api (net : Network) (fuel : nat) (config : RequestConfig)
  (br : Browser) : option (Browser * Outcome) :=
  match fuel with
  | O => None
  | S fuel1 =>
    let config1 := requestInterceptor br config in
    let br1 := send (Request config1) br in
    match respond net (sent br) config1 with
    | inl response => Some (br1, Resolved response)
    | inr status =>
      responseInterceptor net (api net fuel1)
        {| config := config1; response_status := status |} br1
    end
  end.

(** How many refresh posts a log holds. *)
Definition refresh_calls (log : list NetCall) : nat :=
  List.length
    (filter (fun c => match c with TokenRefresh _ => true | _ => false end)
            log).

End Api.

(* ================================================================= *)
(** ** Vocabulary of the properties, and sample data *)

Import Workbench Api.

(** Left-to-right sum starting from [0], the order in which [reduce]
    accumulates. *)
Definition fsum (l : list number) : number :=
  fold_left PrimFloat.add l 0%float.

(** The medicine ids of a line-item list, in order. *)
Definition item_ids (items : list PrescriptionItem) : list Z :=
  map medicine_id items.

(** Whether a line item for medicine [i] is present. *)
Definition has_medicine (i : Z) (items : list PrescriptionItem) : bool :=
  existsb (fun item => Z.eqb (medicine_id item) i) items.

(** The two guards under which an add is turned away. *)
Definition add_rejected (medicine : Medicine) (s : PageState) : bool :=
  has_medicine (m_id medicine) (prescriptionItems s)
  || (is_internal (dispensingMethod s)
      && PrimFloat.leb (current_stock medicine) 0%float).

(** The allergy text of the current patient, when there is a non-empty one. *)
Definition recorded_allergies (s : PageState) : option jsstring :=
  match currentPatient s with
  | Some cp =>
    match cp_allergies cp with
    | Some a => if truthy_string a then Some a else None
    | None => None
    end
  | None => None
  end.

(** A line item whose subtotal is its dosage times its unit price. *)
Definition priced (item : PrescriptionItem) : Prop :=
  subtotal item = PrimFloat.mul (dosage item) (unit_price item).

Definition priced_at (i : nat) (s : PageState) : Prop :=
  exists item, nth_error (prescriptionItems s) i = Some item /\ priced item.

(** Running a sequence of [updateDosage] calls, each on the state the
    previous one left; a call that throws changes nothing. *)
Definition updateDosages (calls : list (nat * number)) (s : PageState)
  : PageState :=
  fold_left
    (fun s c =>
       match updateDosage (fst c) (snd c) s with
       | Some s1 => s1
       | None => s
       end)
    calls s.

(** The state and the calls a save leaves behind, starting from an empty
    log. *)
Definition save_state (b : Backend) (s : PageState) : PageState :=
  fst (fst (saveConsultation b (s, []))).

Definition save_calls (b : Backend) (s : PageState) : list ApiCall :=
  snd (fst (saveConsultation b (s, []))).

Definition is_prescription_create (c : ApiCall) : bool :=
  match c with PostPrescriptions _ => true | _ => false end.

Definition is_registration_complete (c : ApiCall) : bool :=
  match c with PostRegistrationComplete _ => true | _ => false end.

Module Sample.

(** A runtime for evaluating examples: it agrees with the engine on strings
    of decimal digits and on ASCII letters. *)
Definition digits (s : jsstring) : option Z :=
  match s with
  | [] => None
  | _ =>
    fold_left
      (fun acc c =>
         match acc with
         | Some v =>
           if (48 <=? c)%N && (c <=? 57)%N
           then Some (10 * v + Z.of_N c - 48)
           else None
         | None => None
         end)
      s (Some 0)
  end.

Definition parseDigits (s : jsstring) : number :=
  match digits s with
  | Some v => PrimFloat.of_uint63 (Uint63.of_Z v)
  | None => PrimFloat.nan
  end.

Definition asciiLower (s : jsstring) : jsstring :=
  map (fun c => if (65 <=? c)%N && (c <=? 90)%N then (c + 32)%N else c) s.

#[export] Instance runtime : JsRuntime :=
  {| parseFloat := parseDigits; toLowerCase := asciiLower |}.

Definition item (i : Z) (d p : number) : PrescriptionItem :=
  {| item_id := None; medicine_id := i; medicine_name := js "item";
     medicine_code := js "M"; dosage := d; unit := js "g";
     unit_price := p; subtotal := PrimFloat.mul d p;
     stock_quantity := None; is_compound := None |}.

Definition medicine (i : Z) (name price : string) (stock : number)
  : Medicine :=
  {| m_id := i; m_code := js "M"; m_name := js name; m_unit := js "g";
     selling_price := js price; current_stock := stock;
     m_is_compound := false |}.

Definition formula (ids : list Z) : ExperienceFormula :=
  {| f_id := 1; f_name := js "formula"; f_description := [];
     f_items :=
       map (fun i =>
              {| fi_medicine_id := i; fi_medicine_name := js "item";
                 fi_medicine_code := js "M"; fi_dosage := 3%float;
                 fi_unit := js "g" |})
           ids |}.

Definition pharmacy : ExternalPharmacy :=
  {| ph_id := 4; ph_name := js "pharmacy"; ph_type := decoction;
     processing_fee := 15%float; delivery_fee := 25%float |}.

Definition patient_allergic_to (text : string) : CurrentPatient :=
  {| cp_id := 9; cp_name := js "patient"; cp_chart_number := js "C9";
     cp_gender := js "F"; cp_birth_date := js "1980-01-01";
     cp_registration_id := 7; cp_allergies := Some (js text) |}.

(** Two line items, one ad-hoc charge and one known pharmacy; the dispensing
    method and the selection are left to the caller. *)
Definition bill (method : DispensingMethod) (selected : option Z)
  : PageState :=
  setSelectedPharmacy selected
    (setDispensingMethod method
       (setExternalPharmacies [pharmacy]
          (setAdditionalCharges
             [ {| charge_name := js "fee"; amount := 20%float |} ]
             (setPrescriptionItems
                [item 1 2%float 10%float; item 2 3%float 5%float]
                initialState)))).

(** A backend on which every call succeeds, one that turns down the
    consultation create, and one that is down altogether. *)
Definition backend_ok : Backend :=
  {| get_queue := Some ([], []);
     get_external_pharmacies := Some [pharmacy];
     get_consultations := fun _ _ => Some [];
     post_consultations := fun _ _ => Some 31;
     post_prescriptions := fun _ => Some tt;
     post_registration_complete := fun _ => Some tt |}.

Definition backend_no_consultation : Backend :=
  {| get_queue := Some ([], []);
     get_external_pharmacies := Some [pharmacy];
     get_consultations := fun _ _ => Some [];
     post_consultations := fun _ _ => None;
     post_prescriptions := fun _ => Some tt;
     post_registration_complete := fun _ => Some tt |}.

(** A consultation in progress for registration 7. *)
Definition in_consultation (items : list PrescriptionItem) : PageState :=
  setCurrentRegistration (Some 7) (setPrescriptionItems items initialState).

(** A request and the 401 failure it met. *)
Definition request : RequestConfig :=
  {| url := js "/patients/"; body := [];
     authorization := Some (js "Bearer old"); _retry := false |}.

Definition unauthorized : AxiosError :=
  {| config := request; response_status := Some 401 |}.

(** A browser holding both tokens, and one holding only a stale access
    token; in both the request above has been sent. *)
Definition browser_with_tokens : Browser :=
  {| localStorage :=
       {| access_token := Some (js "old"); refresh_token := Some (js "r1") |};
     location_href := js "/consultation";
     sent := [Request request] |}.

Definition browser_without_refresh : Browser :=
  {| localStorage :=
       {| access_token := Some (js "old"); refresh_token := None |};
     location_href := js "/consultation";
     sent := [Request request] |}.

(** A server that accepts the token [new] only, refreshing to it or (second
    record) turning every refresh down. *)
Definition accepts_new (c : RequestConfig) : AxiosResponse + option Z :=
  match authorization c with
  | Some h =>
    if jsstring_eqb h (js "Bearer new")
    then inl {| r_status := 200; r_data := js "[]" |}
    else inr (Some 401)
  | None => inr (Some 401)
  end.

Definition network_refreshing : Network :=
  {| respond := fun _ c => accepts_new c;
     refresh_answer := fun _ _ => Some (Some (js "new")) |}.

Definition network_refusing : Network :=
  {| respond := fun _ c => accepts_new c;
     refresh_answer := fun _ _ => None |}.

End Sample.

(* ================================================================= *)
(** ** Utilities: phone formatting, age, display labels *)

Module Utils.

(** [s.slice(start)] for [start >= 0]. *)
Definition slice_from (s : jsstring) (start : nat) : jsstring :=
  skipn start s.

(** Phone number formatting *)
Definition formatPhone (phone : jsstring) : jsstring :=
  if negb (truthy_string phone) then []
  else
    (* Format as XXXX-XXX-XXX for mobile *)
    if Nat.eqb (List.length phone) 10 && startsWith phone (js "09") then
      slice phone 0 4 ++ js "-" ++ slice phone 4 7 ++ js "-"
      ++ slice_from phone 7
    else phone.

(** The local calendar fields of a [Date], [getFullYear()], [getMonth()]
    (0 to 11) and [getDate()]; a [Date] is invalid when its time value is
    [NaN]. *)
Record DateFields := {
  fullYear : Z;
  month : Z;
  date : Z
}.

Inductive JsDate :=
| InvalidDate
| ValidDate (fields : DateFields).

(** The argument of the date helpers, [string | Date]; [null] and
    [undefined] are [None] around it. *)
Inductive DateInput :=
| DateString (s : jsstring)
| DateObject (d : JsDate).

(** [parseISO] of date-fns; [None] is a thrown exception. *)
Class DateRuntime := {
  parseISO : jsstring -> option JsDate
}.

(** Age calculation.  [today] is [new Date()]. *)
Definition calculateAge {dr : DateRuntime} (today : DateFields)
  (birthDate : option DateInput) : Z :=
  let age_of (birth : JsDate) : Z :=
    match birth with
    | InvalidDate => 0
    | ValidDate birth =>
      let age := fullYear today - fullYear birth in
      let monthDiff := month today - month birth in
      if (monthDiff <? 0)
         || ((monthDiff =? 0) && (date today <? date birth))
      then age - 1
      else age
    end in
  match birthDate with
  | None => 0
  | Some (DateString s) =>
    if negb (truthy_string s) then 0
    else
      match parseISO s with
      | Some birth => age_of birth
      | None => 0
      end
  | Some (DateObject birth) => age_of birth
  end.

(** What [map[key]] yields on an object literal whose own properties are
    strings: the own value, a member inherited from [Object.prototype], or
    [undefined]. *)
Inductive Member :=
| OwnString (v : jsstring)
| Inherited (key : jsstring)
| Undefined.

(** The property names found on [Object.prototype]. *)
Class ObjectRuntime := {
  onPrototype : jsstring -> bool
}.

Fixpoint own_property (map : list (jsstring * jsstring)) (key : jsstring)
  : option jsstring :=
  match map with
  | [] => None
  | (k, v) :: rest =>
    if jsstring_eqb k key then Some v else own_property rest key
  end.

Definition member {o : ObjectRuntime} (map : list (jsstring * jsstring))
  (key : jsstring) : Member :=
  match own_property map key with
  | Some v => OwnString v
  | None => if onPrototype key then Inherited key else Undefined
  end.

(** [map[key] || key]: an empty own string and [undefined] are falsy, an
    inherited member is an object and is handed out as it is. *)
Definition member_or_key {o : ObjectRuntime}
  (map : list (jsstring * jsstring)) (key : jsstring) : Member :=
  match member map key with
  | OwnString v => if truthy_string v then OwnString v else OwnString key
  | Inherited k => Inherited k
  | Undefined => OwnString key
  end.

(** Dispensing method display *)
Definition getDispensingMethodDisplay {o : ObjectRuntime} (method : jsstring)
  : Member :=
  let methodMap :=
    [ (js "internal", js "內部配藥");
      (js "external_decoction", js "外送煎藥");
      (js "external_concentrate", js "外送濃縮") ] in
  member_or_key methodMap method.

End Utils.

(* ================================================================= *)
(** ** Stores: session, registration queue, notifications *)

Module Store.

Inductive Role := admin | doctor | nurse | receptionist | pharmacist.

Record User := {
  u_id : Z;
  username : jsstring;
  email : jsstring;
  first_name : jsstring;
  last_name : jsstring;
  role : Role;
  is_active : bool
}.

(** The auth store together with the [localStorage] entries its actions
    write. *)
Record AuthState := {
  user : option User;
  isAuthenticated : bool;
  accessToken : option jsstring;
  refreshToken : option jsstring;
  auth_storage : Api.LocalStorage
}.

Definition initialAuth (ls : Api.LocalStorage) : AuthState :=
  {| user := None; isAuthenticated := false; accessToken := None;
     refreshToken := None; auth_storage := ls |}.

Definition setUser (u : option User) (st : AuthState) : AuthState :=
  {| user := u;
     isAuthenticated := match u with Some _ => true | None => false end;
     accessToken := accessToken st; refreshToken := refreshToken st;
     auth_storage := auth_storage st |}.

Definition setTokens (access refresh : jsstring) (st : AuthState)
  : AuthState :=
  {| user := user st; isAuthenticated := true;
     accessToken := Some access; refreshToken := Some refresh;
     auth_storage :=
       {| Api.access_token := Some access;
          Api.refresh_token := Some refresh |} |}.

Definition logout (st : AuthState) : AuthState :=
  {| user := None; isAuthenticated := false; accessToken := None;
     refreshToken := None;
     auth_storage :=
       {| Api.access_token := None; Api.refresh_token := None |} |}.

(** Queue store for registration *)
Record QueueItem := {
  qi_id : Z;
  qi_queue_number : Z;
  patient_name : jsstring;
  patient_chart_number : jsstring;
  qi_visit_type : jsstring;
  qi_status : jsstring;
  registration_time : jsstring
}.

(** [Partial<QueueItem>]: the fields an update carries. *)
Record QueueItemUpdates := {
  up_id : option Z;
  up_queue_number : option Z;
  up_patient_name : option jsstring;
  up_patient_chart_number : option jsstring;
  up_visit_type : option jsstring;
  up_status : option jsstring;
  up_registration_time : option jsstring
}.

Definition or_field {A} (update : option A) (old : A) : A :=
  match update with Some v => v | None => old end.

(** [{ ...item, ...updates }] *)
Definition spread (item : QueueItem) (updates : QueueItemUpdates)
  : QueueItem :=
  {| qi_id := or_field (up_id updates) (qi_id item);
     qi_queue_number :=
       or_field (up_queue_number updates) (qi_queue_number item);
     patient_name := or_field (up_patient_name updates) (patient_name item);
     patient_chart_number :=
       or_field (up_patient_chart_number updates)
                (patient_chart_number item);
     qi_visit_type := or_field (up_visit_type updates) (qi_visit_type item);
     qi_status := or_field (up_status updates) (qi_status item);
     registration_time :=
       or_field (up_registration_time updates) (registration_time item) |}.

Record QueueState := {
  queue : list QueueItem;
  currentNumber : Z
}.

Definition setQueue (q : list QueueItem) (st : QueueState) : QueueState :=
  {| queue := q; currentNumber := currentNumber st |}.

Definition setCurrentNumber (num : Z) (st : QueueState) : QueueState :=
  {| queue := queue st; currentNumber := num |}.

Definition addToQueue (item : QueueItem) (st : QueueState) : QueueState :=
  {| queue := queue st ++ [item]; currentNumber := currentNumber st |}.

Definition removeFromQueue (id : Z) (st : QueueState) : QueueState :=
  {| queue := filter (fun item => negb (Z.eqb (qi_id item) id)) (queue st);
     currentNumber := currentNumber st |}.

Definition updateQueueItem (id : Z) (updates : QueueItemUpdates)
  (st : QueueState) : QueueState :=
  {| queue :=
       map (fun item =>
              if Z.eqb (qi_id item) id then spread item updates else item)
           (queue st);
     currentNumber := currentNumber st |}.

(** Notification store.  A stored notification carries the id drawn for
    it. *)
Record Notification := {
  nt_id : jsstring;
  nt_type : Workbench.NotificationType;
  nt_title : jsstring;
  nt_message : option jsstring;
  nt_duration : option number
}.

Definition NotificationState := list Notification.

(** [addNotification(notification)].  [id] is the string drawn by
    [Math.random().toString(36).substring(7)]; the result is the new list
    and the delay, in milliseconds, of the removal timer that is set. *)
Definition addNotification (id : jsstring)
  (n_type : Workbench.NotificationType) (title : jsstring)
  (message : option jsstring) (duration : option number)
  (st : NotificationState) : NotificationState * number :=
  (st ++
   [ {| nt_id := id; nt_type := n_type; nt_title := title;
        nt_message := message; nt_duration := duration |} ],
   (* Auto remove after duration *)
   match duration with
   | Some d => if truthy_number d then d else 5000%float
   | None => 5000%float
   end).

(** The callback of the removal timer set for [id]. *)
Definition timer_fires (id : jsstring) (st : NotificationState)
  : NotificationState :=
  filter (fun n => negb (jsstring_eqb (nt_id n) id)) st.

Definition removeNotification (id : jsstring) (st : NotificationState)
  : NotificationState :=
  filter (fun n => negb (jsstring_eqb (nt_id n) id)) st.

Definition clearNotifications (st : NotificationState) : NotificationState :=
  [].

End Store.

(* ================================================================= *)
(** ** Further vocabulary and sample data *)

(** Calendar order on (year, month, day), the first date moved forward by
    [years] years. *)
Definition on_or_before (years : Z) (a b : Utils.DateFields) : Prop :=
  Utils.fullYear a + years < Utils.fullYear b
  \/ (Utils.fullYear a + years = Utils.fullYear b
      /\ (Utils.month a < Utils.month b
          \/ (Utils.month a = Utils.month b
              /\ Utils.date a <= Utils.date b))).

(** The string a dispensing method is in the page state and in the
    prescription payload. *)
Definition methodKey (m : DispensingMethod) : jsstring :=
  match m with
  | internal => js "internal"
  | external_decoction => js "external_decoction"
  | external_concentrated => js "external_concentrated"
  end.

(** A charge as [addAdditionalCharge] lets it in: a non-empty name and an
    amount for which [amount <= 0] is false. *)
Definition admitted_charge (c : Charge) : Prop :=
  truthy_string (charge_name c) = true
  /\ PrimFloat.leb (amount c) 0%float = false.

(** The text [addAdditionalCharge] hands to [parseFloat] for the amount,
    [amountStr || '0']. *)
Definition amount_text (amountStr : option jsstring) : jsstring :=
  if truthy_ostring amountStr
  then match amountStr with Some a => a | None => [] end
  else js "0".

(** An action on the line-item list other than applying a formula. *)
Definition not_formula (a : Action) : Prop :=
  match a with ApplyExperienceFormula _ => False | _ => True end.

(** Whether the backend turns a call down. *)
Definition rejected (b : Backend) (c : ApiCall) : bool :=
  match c with
  | GetRegistrationsQueue =>
    match get_queue b with Some _ => false | None => true end
  | GetExternalPharmacies =>
    match get_external_pharmacies b with Some _ => false | None => true end
  | GetConsultations patient_id limit =>
    match get_consultations b patient_id limit with
    | Some _ => false
    | None => true
    end
  | PostConsultations registration form =>
    match post_consultations b registration form with
    | Some _ => false
    | None => true
    end
  | PostPrescriptions data =>
    match post_prescriptions b data with Some _ => false | None => true end
  | PostRegistrationComplete registration =>
    match post_registration_complete b registration with
    | Some _ => false
    | None => true
    end
  end.

(** How many requests of the [api] instance a log holds. *)
Definition request_calls (log : list NetCall) : nat :=
  List.length
    (filter (fun c => match c with Request _ => true | _ => false end) log).

Definition is_star (c : code_unit) : Prop := c = 42%N.

Module Fixture.

(** Dates written as ten characters, year-month-day. *)
Definition parseYMD (s : jsstring) : option Utils.JsDate :=
  match Sample.digits (slice s 0 4), Sample.digits (slice s 5 7),
        Sample.digits (slice s 8 10) with
  | Some y, Some m, Some d =>
    Some (Utils.ValidDate
            {| Utils.fullYear := y; Utils.month := m - 1; Utils.date := d |})
  | _, _, _ => Some Utils.InvalidDate
  end.

#[export] Instance dates : Utils.DateRuntime :=
  {| Utils.parseISO := parseYMD |}.

(** An engine whose [Object.prototype] has the usual members. *)
#[export] Instance objects : Utils.ObjectRuntime :=
  {| Utils.onPrototype :=
       fun key =>
         existsb (jsstring_eqb key)
           [js "constructor"; js "toString"; js "valueOf";
            js "hasOwnProperty"; js "isPrototypeOf";
            js "propertyIsEnumerable"; js "toLocaleString";
            js "__proto__"] |}.

Definition queue_item (id : Z) (status : string) : Store.QueueItem :=
  {| Store.qi_id := id; Store.qi_queue_number := id;
     Store.patient_name := js "patient";
     Store.patient_chart_number := js "C1";
     Store.qi_visit_type := js "first_visit";
     Store.qi_status := js status;
     Store.registration_time := js "09:00" |}.

Definition no_updates : Store.QueueItemUpdates :=
  {| Store.up_id := None; Store.up_queue_number := None;
     Store.up_patient_name := None; Store.up_patient_chart_number := None;
     Store.up_visit_type := None; Store.up_status := None;
     Store.up_registration_time := None |}.

Definition status_update (status : string) : Store.QueueItemUpdates :=
  {| Store.up_id := None; Store.up_queue_number := None;
     Store.up_patient_name := None; Store.up_patient_chart_number := None;
     Store.up_visit_type := None; Store.up_status := Some (js status);
     Store.up_registration_time := None |}.

Definition queue_patient (registration : Z) (allergies : option jsstring)
  : QueuePatient :=
  {| q_id := registration; queue_number := 1;
     patient :=
       {| p_id := 9; p_name := js "patient"; p_chart_number := js "C9";
          p_gender := js "F"; p_birth_date := js "1980-01-01";
          p_phone := None; p_allergies := allergies |};
     visit_type := js "first_visit"; status := js "waiting";
     doctor_name := None |}.

(** Backends that break at the second and at the third step of a save. *)
Definition backend_no_prescription : Backend :=
  {| get_queue := Some ([], []);
     get_external_pharmacies := Some [Sample.pharmacy];
     get_consultations := fun _ _ => Some [];
     post_consultations := fun _ _ => Some 31;
     post_prescriptions := fun _ => None;
     post_registration_complete := fun _ => Some tt |}.

Definition backend_no_complete : Backend :=
  {| get_queue := Some ([], []);
     get_external_pharmacies := Some [Sample.pharmacy];
     get_consultations := fun _ _ => Some [];
     post_consultations := fun _ _ => Some 31;
     post_prescriptions := fun _ => Some tt;
     post_registration_complete := fun _ => None |}.

(** A second pharmacy, and a bill on which it is the selected one while the
    first pharmacy of the list is another. *)
Definition second_pharmacy : ExternalPharmacy :=
  {| ph_id := 6; ph_name := js "second"; ph_type := concentrated;
     processing_fee := 30%float; delivery_fee := 40%float |}.

Definition bill_two_pharmacies (selected : option Z) : PageState :=
  setSelectedPharmacy selected
    (setDispensingMethod external_concentrated
       (setExternalPharmacies [Sample.pharmacy; second_pharmacy]
          (Sample.bill external_concentrated None))).

(** A backend that turns down the prescription create only. *)
Definition backend_prescription_refused : Backend :=
  {| get_queue := Some ([], []);
     get_external_pharmacies := Some [Sample.pharmacy];
     get_consultations := fun _ _ => Some [];
     post_consultations := fun _ _ => Some 31;
     post_prescriptions := fun _ => None;
     post_registration_complete := fun _ => Some tt |}.

End Fixture.

(* ================================================================= *)
(** ** Properties of the line-item list *)

Section LineItems.

Lemma filter_from_drop {A} (l : list A) :
  forall k i,
    filter_from k (fun _ j => negb (Nat.eqb j (k + i))) l
    = firstn i l ++ skipn (S i) l.
Proof.
  induction l as [|x t IH]; intros k i.
  - destruct i; reflexivity.
  - destruct i as [|i]; simpl.
    + rewrite Nat.add_0_r, Nat.eqb_refl. simpl.
      clear IH. revert k.
      assert (H : forall m k, (k < m)%nat ->
                filter_from m (fun _ j => negb (Nat.eqb j k)) t = t).
      { induction t as [|y u IHu]; intros m k Hlt; simpl; [reflexivity|].
        destruct (Nat.eqb_spec m k); [lia|]. simpl.
        rewrite IHu by lia. reflexivity. }
      intros k. apply H. lia.
    + destruct (Nat.eqb_spec k (k + S i)); [lia|]. simpl.
      replace (k + S i)%nat with (S k + i)%nat by lia.
      rewrite IH. reflexivity.
Qed.

Lemma filter_from_out_of_range {A} (l : list A) :
  forall k i, (k + List.length l <= i)%nat ->
    filter_from k (fun _ j => negb (Nat.eqb j i)) l = l.
Proof.
  induction l as [|x t IH]; intros k i Hle; simpl in *; [reflexivity|].
  destruct (Nat.eqb_spec k i); [lia|]. simpl.
  rewrite IH by lia. reflexivity.
Qed.

Lemma removeMedicine_items index s :
  prescriptionItems (removeMedicine index s)
  = firstn index (prescriptionItems s) ++ skipn (S index) (prescriptionItems s).
Proof.
  unfold removeMedicine, filter_indexed. simpl.
  apply (filter_from_drop (prescriptionItems s) 0 index).
Qed.

(** C8.  Removing a valid index [i] from a list of [n] line items leaves
    [n - 1] items: the ones before [i] keep their positions, the ones after
    [i] move down by one, and nothing else is in the list.  *)
Theorem removeMedicine_valid_index (s : PageState) (i : nat)
  (Hi : (i < List.length (prescriptionItems s))%nat) :
  let items := prescriptionItems s in
  let items' := prescriptionItems (removeMedicine i s) in
  List.length items' = (List.length items - 1)%nat
  /\ items' = firstn i items ++ skipn (S i) items
  /\ (forall j, (j < i)%nat -> nth_error items' j = nth_error items j)
  /\ (forall j, (i <= j)%nat -> nth_error items' j = nth_error items (S j)).
Proof.
  intros items items'. subst items'.
  rewrite removeMedicine_items. fold items.
  assert (Hlen : List.length (firstn i items) = i).
  { rewrite length_firstn. subst items. lia. }
  repeat split.
  - rewrite length_app, Hlen, length_skipn. subst items. lia.
  - intros j Hj. rewrite nth_error_app1 by lia.
    rewrite nth_error_firstn.
    destruct (Nat.ltb_spec j i); [reflexivity | lia].
  - intros j Hj. rewrite nth_error_app2 by lia.
    rewrite Hlen, nth_error_skipn. f_equal. lia.
Qed.

Lemma removeMedicine_valid_index_witness :
  prescriptionItems
    (removeMedicine 0
       (Sample.in_consultation
          [Sample.item 1 2%float 10%float; Sample.item 2 3%float 5%float]))
  = [Sample.item 2 3%float 5%float].
Proof.
  pose proof (removeMedicine_valid_index
                (Sample.in_consultation
                   [Sample.item 1 2%float 10%float;
                    Sample.item 2 3%float 5%float]) 0) as H.
  simpl in H. destruct (H ltac:(lia)) as [_ [Heq _]]. exact Heq.
Defined.

Lemma length_set_nth {A} (x : A) (l : list A) :
  forall i, List.length (set_nth i x l) = List.length l.
Proof.
  induction l as [|h t IH]; intros [|i]; simpl; auto.
Qed.

Lemma nth_error_set_nth_same {A} (x : A) (l : list A) :
  forall i, (i < List.length l)%nat -> nth_error (set_nth i x l) i = Some x.
Proof.
  induction l as [|h t IH]; intros [|i] Hi; simpl in *; try lia; auto.
  apply IH. lia.
Qed.

Lemma nth_error_set_nth_other {A} (x : A) (l : list A) :
  forall i j, i <> j -> nth_error (set_nth i x l) j = nth_error l j.
Proof.
  induction l as [|h t IH]; intros [|i] [|j] Hij; simpl; auto.
  congruence.
Qed.

Lemma updateDosage_in_range s index d :
  (index < List.length (prescriptionItems s))%nat ->
  exists s1, updateDosage index d s = Some s1
    /\ List.length (prescriptionItems s1) = List.length (prescriptionItems s)
    /\ priced_at index s1
    /\ (forall j, j <> index ->
          nth_error (prescriptionItems s1) j = nth_error (prescriptionItems s) j).
Proof.
  intros Hi. unfold updateDosage.
  destruct (nth_error (prescriptionItems s) index) as [item|] eqn:Hnth.
  - eexists. split; [reflexivity|]. simpl. repeat split.
    + apply length_set_nth.
    + eexists. split; [apply nth_error_set_nth_same; exact Hi|].
      reflexivity.
    + intros j Hj. apply nth_error_set_nth_other. congruence.
  - apply nth_error_None in Hnth. lia.
Qed.

Lemma updateDosage_out_of_range s index d :
  (List.length (prescriptionItems s) <= index)%nat ->
  updateDosage index d s = None.
Proof.
  intros Hi. unfold updateDosage.
  apply nth_error_None in Hi. rewrite Hi. reflexivity.
Qed.

(** One call keeps the length and keeps every priced position priced. *)
Lemma updateDosage_step_keeps s c :
  let s1 := match updateDosage (fst c) (snd c) s with
            | Some s1 => s1
            | None => s
            end in
  List.length (prescriptionItems s1) = List.length (prescriptionItems s)
  /\ (forall i, priced_at i s -> priced_at i s1).
Proof.
  destruct c as [index d]. simpl.
  destruct (Nat.lt_ge_cases index (List.length (prescriptionItems s)))
    as [Hlt|Hge].
  - destruct (updateDosage_in_range s index d Hlt)
      as [s1 [Heq [Hlen [Hat Hother]]]].
    rewrite Heq. split; [exact Hlen|].
    intros i [item [Hnth Hp]].
    destruct (Nat.eq_dec i index) as [->|Hne]; [exact Hat|].
    exists item. rewrite Hother by exact Hne. auto.
  - rewrite updateDosage_out_of_range by exact Hge. auto.
Qed.

Lemma updateDosages_keeps calls :
  forall s,
    List.length (prescriptionItems (updateDosages calls s))
    = List.length (prescriptionItems s)
    /\ (forall i, priced_at i s -> priced_at i (updateDosages calls s)).
Proof.
  induction calls as [|c calls IH]; intros s; simpl; [auto|].
  destruct (updateDosage_step_keeps s c) as [Hlen Hkeep].
  destruct (IH (match updateDosage (fst c) (snd c) s with
                | Some s1 => s1
                | None => s
                end)) as [Hlen' Hkeep'].
  split; [congruence|]. intros i Hi. apply Hkeep', Hkeep, Hi.
Qed.

Lemma updateDosages_priced calls :
  forall s index d,
    In (index, d) calls ->
    (index < List.length (prescriptionItems s))%nat ->
    priced_at index (updateDosages calls s).
Proof.
  induction calls as [|c calls IH]; intros s index d Hin Hi; [destruct Hin|].
  simpl. destruct Hin as [->|Hin].
  - simpl. destruct (updateDosage_in_range s index d Hi)
      as [s1 [Heq [_ [Hat _]]]].
    rewrite Heq. apply updateDosages_keeps, Hat.
  - apply (IH _ index d Hin).
    destruct (updateDosage_step_keeps s c) as [Hlen _].
    simpl in Hlen. rewrite Hlen. exact Hi.
Qed.

(** C7.  For an index inside the list and any number [d] whatever (zero and
    negative ones included), [updateDosage] goes through: the item at the
    index gets dosage [d] and subtotal [d * unit_price], its unit price and
    the other items stay as they were; the stored subtotal is the binary64
    product itself, so comparing the two with [==] yields [true] unless the
    product is [NaN].  And after any sequence of [updateDosage] calls, every
    item that a call of the sequence addressed has its subtotal equal to its
    dosage times its unit price. *)
Theorem updateDosage_subtotal :
  (forall s index d item,
      nth_error (prescriptionItems s) index = Some item ->
      exists s1 item1,
        updateDosage index d s = Some s1
        /\ nth_error (prescriptionItems s1) index = Some item1
        /\ dosage item1 = d
        /\ unit_price item1 = unit_price item
        /\ subtotal item1 = PrimFloat.mul d (unit_price item)
        /\ PrimFloat.eqb (subtotal item1) (PrimFloat.mul d (unit_price item))
           = negb (is_nan (PrimFloat.mul d (unit_price item)))
        /\ medicine_id item1 = medicine_id item
        /\ List.length (prescriptionItems s1)
           = List.length (prescriptionItems s)
        /\ (forall j, j <> index ->
              nth_error (prescriptionItems s1) j
              = nth_error (prescriptionItems s) j))
  /\ (forall calls s index d,
        In (index, d) calls ->
        (index < List.length (prescriptionItems s))%nat ->
        exists item,
          nth_error (prescriptionItems (updateDosages calls s)) index
          = Some item
          /\ subtotal item = PrimFloat.mul (dosage item) (unit_price item)).
Proof.
  split.
  - intros s index d item Hnth.
    assert (Hi : (index < List.length (prescriptionItems s))%nat).
    { apply nth_error_Some. congruence. }
    unfold updateDosage. rewrite Hnth.
    eexists. eexists. split; [reflexivity|]. simpl.
    split; [apply nth_error_set_nth_same; exact Hi|]. simpl.
    repeat split.
    + unfold is_nan. rewrite negb_involutive. reflexivity.
    + apply length_set_nth.
    + intros j Hj. apply nth_error_set_nth_other. congruence.
  - intros calls s index d Hin Hi.
    exact (updateDosages_priced calls s index d Hin Hi).
Qed.

Example updateDosage_zero_and_negative :
  option_map prescriptionItems
    (updateDosage 0 0%float
       (Sample.in_consultation [Sample.item 1 2%float 10%float]))
  = Some [Sample.item 1 0%float 10%float]
  /\ option_map prescriptionItems
       (updateDosage 0 (-3)%float
          (Sample.in_consultation [Sample.item 1 2%float 10%float]))
     = Some [Sample.item 1 (-3)%float 10%float].
Proof. split; reflexivity. Qed.

Lemma updateDosage_subtotal_witness :
  exists item,
    nth_error
      (prescriptionItems
         (updateDosages [(0%nat, 0%float); (1%nat, (-3)%float)]
            (Sample.in_consultation
               [Sample.item 1 2%float 10%float;
                Sample.item 2 3%float 5%float])))
      1
    = Some item
    /\ subtotal item = PrimFloat.mul (dosage item) (unit_price item).
Proof.
  destruct updateDosage_subtotal as [_ Hseq].
  apply (Hseq [(0%nat, 0%float); (1%nat, (-3)%float)] _ 1%nat (-3)%float).
  - right. left. reflexivity.
  - simpl. lia.
Defined.

End LineItems.

(* ================================================================= *)
(** ** Adding a medicine *)

Section AddMedicine.

Context {rt : JsRuntime}.

Lemma find_none_existsb {A} (f : A -> bool) (l : list A) :
  find f l = None <-> existsb f l = false.
Proof.
  induction l as [|x t IH]; simpl; [tauto|].
  destruct (f x); simpl; [split; discriminate | exact IH].
Qed.

Lemma addMedicine_duplicate medicine s :
  has_medicine (m_id medicine) (prescriptionItems s) = true ->
  addMedicine medicine s
  = addNotification
      {| n_type := NWarning; n_title := js "藥品已存在";
         n_message := Some (js "請直接修改劑量") |} s.
Proof.
  intros Hdup. unfold addMedicine, has_medicine in *.
  destruct (find _ (prescriptionItems s)) eqn:Hfind; [reflexivity|].
  apply find_none_existsb in Hfind. congruence.
Qed.

Lemma addMedicine_no_stock medicine s :
  has_medicine (m_id medicine) (prescriptionItems s) = false ->
  is_internal (dispensingMethod s) = true ->
  PrimFloat.leb (current_stock medicine) 0%float = true ->
  addMedicine medicine s
  = addNotification
      {| n_type := NError; n_title := js "庫存不足";
         n_message := Some (m_name medicine ++ js " 庫存不足，無法開立") |} s.
Proof.
  intros Hnew Hint Hstock. unfold addMedicine, has_medicine in *.
  apply find_none_existsb in Hnew. rewrite Hnew, Hint, Hstock. reflexivity.
Qed.

Lemma add_rejected_false medicine s :
  add_rejected medicine s = false ->
  find (fun item => Z.eqb (medicine_id item) (m_id medicine))
       (prescriptionItems s) = None
  /\ is_internal (dispensingMethod s)
     && PrimFloat.leb (current_stock medicine) 0%float = false.
Proof.
  unfold add_rejected. intros H. apply orb_false_iff in H.
  destruct H as [Hnew Hguard]. split; [|exact Hguard].
  apply find_none_existsb. exact Hnew.
Qed.

Lemma addMedicine_accepted medicine s :
  add_rejected medicine s = false ->
  prescriptionItems (addMedicine medicine s)
  = prescriptionItems s ++
    [ {| item_id := None;
         medicine_id := m_id medicine;
         medicine_name := m_name medicine;
         medicine_code := m_code medicine;
         dosage := 1%float;
         unit := m_unit medicine;
         unit_price := or_zero (parseFloat (selling_price medicine));
         subtotal := or_zero (parseFloat (selling_price medicine));
         stock_quantity := Some (current_stock medicine);
         is_compound := Some (m_is_compound medicine) |} ]
  /\ notifications (addMedicine medicine s) = notifications s.
Proof.
  intros Hok. destruct (add_rejected_false medicine s Hok) as [Hfind Hguard].
  unfold addMedicine. rewrite Hfind, Hguard.
  destruct (currentPatient s) as [cp|]; [|split; reflexivity].
  destruct (cp_allergies cp) as [a|]; [|split; reflexivity].
  destruct (truthy_string a); [|split; reflexivity].
  destruct (includes _ _); split; reflexivity.
Qed.

Lemma addMedicine_rejected medicine s :
  add_rejected medicine s = true ->
  prescriptionItems (addMedicine medicine s) = prescriptionItems s.
Proof.
  intros Hrej. unfold add_rejected in Hrej.
  destruct (has_medicine (m_id medicine) (prescriptionItems s)) eqn:Hdup.
  - rewrite (addMedicine_duplicate medicine s Hdup). reflexivity.
  - simpl in Hrej. apply andb_true_iff in Hrej. destruct Hrej as [Hi Hs].
    rewrite (addMedicine_no_stock medicine s Hdup Hi Hs). reflexivity.
Qed.

(** C3 (as amended).  When a line item with the medicine's id exists, or the
    dispensing method is internal and the stock is [<= 0], [addMedicine]
    changes nothing but the notification list, to which it adds one
    notification.  The duplicate guard is tested first: the notification is
    a warning whenever a line item with the medicine's id exists, whatever
    the stock and the dispensing method, and an error only when no such item
    exists and the dispensing method is internal with stock [<= 0].  In
    every other case the list becomes the old list followed by one new item
    with the medicine's id, dosage [1] and subtotal equal to its unit price,
    and no notification is raised. *)
Theorem addMedicine_contract (medicine : Medicine) (s : PageState) :
  (add_rejected medicine s = true ->
   prescriptionItems (addMedicine medicine s) = prescriptionItems s
   /\ exists n,
        addMedicine medicine s = addNotification n s
        /\ n_type n
           = if has_medicine (m_id medicine) (prescriptionItems s)
             then NWarning else NError)
  /\ (add_rejected medicine s = false ->
      notifications (addMedicine medicine s) = notifications s
      /\ exists item,
           prescriptionItems (addMedicine medicine s)
           = prescriptionItems s ++ [item]
           /\ medicine_id item = m_id medicine
           /\ dosage item = 1%float
           /\ unit_price item = or_zero (parseFloat (selling_price medicine))
           /\ subtotal item = unit_price item).
Proof.
  split.
  - intros Hrej. unfold add_rejected in Hrej.
    destruct (has_medicine (m_id medicine) (prescriptionItems s)) eqn:Hdup.
    + rewrite (addMedicine_duplicate medicine s Hdup).
      split; [reflexivity|]. eexists. split; reflexivity.
    + simpl in Hrej. apply andb_true_iff in Hrej. destruct Hrej as [Hi Hs].
      rewrite (addMedicine_no_stock medicine s Hdup Hi Hs).
      split; [reflexivity|]. eexists. split; reflexivity.
  - intros Hok. destruct (addMedicine_accepted medicine s Hok) as [Hitems Hn].
    split; [exact Hn|]. eexists. split; [exact Hitems|].
    repeat split.
Qed.

(** C9 (as amended).  When [addMedicine] is not turned away by the duplicate
    or the stock guard, and the current patient has a non-empty allergy text
    whose lower-cased form contains the lower-cased medicine name, the
    allergy warning is shown, naming the medicine, and the item is appended
    all the same.  More generally an add that raises the allergy warning
    always appends the item. *)
Theorem addMedicine_allergy_warning (medicine : Medicine) (s : PageState)
  (a : jsstring)
  (Hok : add_rejected medicine s = false)
  (Hallergy : recorded_allergies s = Some a)
  (Hmatch : includes (toLowerCase a) (toLowerCase (m_name medicine)) = true) :
  showAllergyWarning (addMedicine medicine s) = true
  /\ allergyMessage (addMedicine medicine s)
     = js "警告：病患對 " ++ m_name medicine ++ js " 過敏！"
  /\ exists item,
       prescriptionItems (addMedicine medicine s)
       = prescriptionItems s ++ [item]
       /\ medicine_id item = m_id medicine.
Proof.
  destruct (addMedicine_accepted medicine s Hok) as [Hitems _].
  split; [|split].
  - destruct (add_rejected_false medicine s Hok) as [Hfind Hguard].
    unfold addMedicine. rewrite Hfind, Hguard.
    unfold recorded_allergies in Hallergy.
    destruct (currentPatient s) as [cp|]; [|discriminate].
    destruct (cp_allergies cp) as [a0|]; [|discriminate].
    destruct (truthy_string a0); [|discriminate].
    injection Hallergy as ->. rewrite Hmatch. reflexivity.
  - destruct (add_rejected_false medicine s Hok) as [Hfind Hguard].
    unfold addMedicine. rewrite Hfind, Hguard.
    unfold recorded_allergies in Hallergy.
    destruct (currentPatient s) as [cp|]; [|discriminate].
    destruct (cp_allergies cp) as [a0|]; [|discriminate].
    destruct (truthy_string a0); [|discriminate].
    injection Hallergy as ->. rewrite Hmatch. reflexivity.
  - eexists. split; [exact Hitems|]. reflexivity.
Qed.

End AddMedicine.

#[local] Existing Instance Sample.runtime.

(** The stock guard raises an error notification, not a warning: adding a
    medicine with stock [0] under internal dispensing. *)
Lemma addMedicine_stock_guard_raises_error :
  let s := Sample.in_consultation [] in
  let medicine := Sample.medicine 1 "aspirin" "12" 0%float in
  add_rejected medicine s = true
  /\ prescriptionItems (addMedicine medicine s) = []
  /\ map n_type (notifications (addMedicine medicine s)) = [NError].
Proof. vm_compute. repeat split. Qed.

Lemma addMedicine_contract_witness :
  prescriptionItems
    (addMedicine (Sample.medicine 1 "aspirin" "12" 5%float)
       (Sample.in_consultation [Sample.item 1 2%float 10%float]))
  = [Sample.item 1 2%float 10%float]
  /\ List.length
       (prescriptionItems
          (addMedicine (Sample.medicine 2 "ginseng" "12" 5%float)
             (Sample.in_consultation [Sample.item 1 2%float 10%float])))
     = 2%nat.
Proof.
  split.
  - destruct (addMedicine_contract
                (Sample.medicine 1 "aspirin" "12" 5%float)
                (Sample.in_consultation [Sample.item 1 2%float 10%float]))
      as [Hrej _].
    destruct (Hrej eq_refl) as [Hitems _]. exact Hitems.
  - destruct (addMedicine_contract
                (Sample.medicine 2 "ginseng" "12" 5%float)
                (Sample.in_consultation [Sample.item 1 2%float 10%float]))
      as [_ Hok].
    destruct (Hok eq_refl) as [_ [item [Hitems _]]].
    rewrite Hitems. reflexivity.
Defined.

(** Both guards at once: the medicine is on the list and out of stock under
    internal dispensing.  The duplicate guard answers, with a warning. *)
Example addMedicine_duplicate_before_stock :
  let s := Sample.in_consultation [Sample.item 1 2%float 10%float] in
  let medicine := Sample.medicine 1 "aspirin" "12" 0%float in
  dispensingMethod s = internal
  /\ prescriptionItems (addMedicine medicine s)
     = [Sample.item 1 2%float 10%float]
  /\ map n_type (notifications (addMedicine medicine s)) = [NWarning].
Proof. vm_compute. repeat split. Qed.

Example addMedicine_appends :
  prescriptionItems
    (addMedicine (Sample.medicine 2 "ginseng" "12" 5%float)
       (Sample.in_consultation [Sample.item 1 2%float 10%float]))
  = [Sample.item 1 2%float 10%float;
     {| item_id := None; medicine_id := 2; medicine_name := js "ginseng";
        medicine_code := js "M"; dosage := 1%float; unit := js "g";
        unit_price := 12%float; subtotal := 12%float;
        stock_quantity := Some 5%float; is_compound := Some false |}].
Proof. vm_compute. reflexivity. Qed.

Example addMedicine_duplicate_is_noop :
  let s := Sample.in_consultation [Sample.item 1 2%float 10%float] in
  let s1 := addMedicine (Sample.medicine 1 "aspirin" "12" 5%float) s in
  prescriptionItems s1 = prescriptionItems s
  /\ map n_type (notifications s1) = [NWarning].
Proof. vm_compute. split; reflexivity. Qed.

Lemma addMedicine_allergy_warning_witness :
  let s :=
    setCurrentPatient (Some (Sample.patient_allergic_to "Penicillin, Aspirin"))
      (Sample.in_consultation [Sample.item 1 2%float 10%float]) in
  let medicine := Sample.medicine 2 "aspirin" "12" 5%float in
  showAllergyWarning (addMedicine medicine s) = true
  /\ List.length (prescriptionItems (addMedicine medicine s)) = 2%nat.
Proof.
  intros s medicine.
  assert (Hok : add_rejected medicine s = false) by (vm_compute; reflexivity).
  assert (Hallergy : recorded_allergies s = Some (js "Penicillin, Aspirin"))
    by (vm_compute; reflexivity).
  assert (Hmatch : includes (toLowerCase (js "Penicillin, Aspirin"))
                            (toLowerCase (m_name medicine)) = true)
    by (vm_compute; reflexivity).
  destruct (addMedicine_allergy_warning medicine s
              (js "Penicillin, Aspirin") Hok Hallergy Hmatch)
    as [Hshow [_ [item [Hitems _]]]].
  split; [exact Hshow|]. rewrite Hitems. reflexivity.
Defined.

(** A patient allergic to a medicine that is already on the list: the second
    add raises no allergy warning and appends nothing. *)
Lemma addMedicine_allergy_duplicate :
  let s :=
    setCurrentPatient (Some (Sample.patient_allergic_to "Penicillin, Aspirin"))
      (Sample.in_consultation [Sample.item 2 2%float 10%float]) in
  let medicine := Sample.medicine 2 "aspirin" "12" 5%float in
  includes (toLowerCase (js "Penicillin, Aspirin"))
           (toLowerCase (m_name medicine)) = true
  /\ showAllergyWarning (addMedicine medicine s) = false
  /\ prescriptionItems (addMedicine medicine s) = prescriptionItems s.
Proof. vm_compute. repeat split. Qed.

(* ================================================================= *)
(** ** Fee aggregation *)

Section Totals.

#[local] Open Scope float_scope.

Lemma fold_left_add_map {A} (f : A -> number) (l : list A) :
  forall acc,
    fold_left (fun sum item => sum + f item) l acc
    = fold_left PrimFloat.add (map f l) acc.
Proof.
  induction l as [|x t IH]; intros acc; simpl; [reflexivity|].
  apply IH.
Qed.

Lemma medicineTotal_fsum s :
  medicineTotal s = fsum (map subtotal (prescriptionItems s)).
Proof. unfold medicineTotal, fsum. apply fold_left_add_map. Qed.

Lemma additionalTotal_fsum s :
  additionalTotal s = fsum (map amount (additionalCharges s)).
Proof. unfold additionalTotal, fsum. apply fold_left_add_map. Qed.

Lemma selectedPharmacyData_none s :
  selectedPharmacy s = None -> selectedPharmacyData s = None.
Proof.
  unfold selectedPharmacyData. intros ->.
  induction (externalPharmacies s) as [|p t IH]; simpl; auto.
Qed.

Lemma selectedPharmacyData_some s p :
  selectedPharmacyData s = Some p ->
  selectedPharmacy s = Some (ph_id p) /\ In p (externalPharmacies s).
Proof.
  unfold selectedPharmacyData. intros H.
  apply find_some in H. destruct H as [Hin Hid]. split; [|exact Hin].
  destruct (selectedPharmacy s) as [i|]; [|discriminate].
  apply Z.eqb_eq in Hid. congruence.
Qed.

Lemma find_first_match {A} (f : A -> bool) (before after : list A) (x : A) :
  (forall y, In y before -> f y = false) ->
  f x = true ->
  find f (before ++ x :: after) = Some x.
Proof.
  induction before as [|y t IH]; simpl; intros Hbefore Hx.
  - rewrite Hx. reflexivity.
  - rewrite (Hbefore y (or_introl eq_refl)). apply IH; auto.
Qed.

Lemma find_no_match {A} (f : A -> bool) (l : list A) :
  (forall y, In y l -> f y = false) -> find f l = None.
Proof.
  induction l as [|y t IH]; simpl; intros H; [reflexivity|].
  rewrite (H y (or_introl eq_refl)). apply IH. auto.
Qed.

(** The pharmacy looked up for a selected id is the first one of the list
    that carries the id. *)
Lemma selectedPharmacyData_first s before p after :
  externalPharmacies s = before ++ p :: after ->
  selectedPharmacy s = Some (ph_id p) ->
  (forall q, In q before -> ph_id q <> ph_id p) ->
  selectedPharmacyData s = Some p.
Proof.
  intros Hlist Hsel Hbefore. unfold selectedPharmacyData.
  rewrite Hlist, Hsel. apply find_first_match.
  - intros q Hq. apply Z.eqb_neq. apply Hbefore, Hq.
  - apply Z.eqb_refl.
Qed.

Lemma selectedPharmacyData_unknown s i :
  selectedPharmacy s = Some i ->
  (forall q, In q (externalPharmacies s) -> ph_id q <> i) ->
  selectedPharmacyData s = None.
Proof.
  intros Hsel Hnone. unfold selectedPharmacyData. rewrite Hsel.
  apply find_no_match. intros q Hq. apply Z.eqb_neq. apply Hnone, Hq.
Qed.

Lemma selectedPharmacyData_member s p :
  In p (externalPharmacies s) ->
  selectedPharmacy s = Some (ph_id p) ->
  NoDup (map ph_id (externalPharmacies s)) ->
  selectedPharmacyData s = Some p.
Proof.
  intros Hin Hsel Hids.
  destruct (in_split p (externalPharmacies s) Hin) as [before [after Hlist]].
  apply (selectedPharmacyData_first s before p after Hlist Hsel).
  intros q Hq Heq. rewrite Hlist, map_app in Hids. simpl in Hids.
  apply NoDup_remove_2 in Hids. apply Hids.
  apply in_or_app. left. rewrite <- Heq. apply in_map. exact Hq.
Qed.

(** C1.  The grand total is the sum of the line items' subtotals, plus the
    sum of the additional charges' amounts, plus the processing fee, plus
    the delivery fee (the sums accumulated left to right from [0]).  With a
    dispensing method other than internal and a pharmacy selected, that is,
    the selected id being the id of a pharmacy of the list, the two fees are
    that pharmacy's (the first one with the id, should the list repeat
    an id).  Otherwise, under internal dispensing, with nothing selected or
    with a selected id that no pharmacy of the list carries, both fees are
    [0].  Switching the dispensing method to internal makes both fees [0]
    whatever pharmacy is selected. *)
Theorem totalAmount_is_sum (s : PageState) :
  totalAmount s
  = fsum (map subtotal (prescriptionItems s))
    + fsum (map amount (additionalCharges s))
    + processingFee s + deliveryFee s
  /\ (forall p,
        dispensingMethod s <> internal ->
        selectedPharmacyData s = Some p ->
        selectedPharmacy s = Some (ph_id p)
        /\ In p (externalPharmacies s)
        /\ processingFee s = processing_fee p
        /\ deliveryFee s = delivery_fee p)
  /\ (dispensingMethod s = internal \/ selectedPharmacyData s = None ->
      processingFee s = 0 /\ deliveryFee s = 0)
  /\ (selectedPharmacy s = None -> selectedPharmacyData s = None)
  /\ (let s1 := setDispensingMethod internal s in
      selectedPharmacy s1 = selectedPharmacy s
      /\ processingFee s1 = 0 /\ deliveryFee s1 = 0
      /\ totalAmount s1
         = fsum (map subtotal (prescriptionItems s))
           + fsum (map amount (additionalCharges s)) + 0 + 0)
  /\ (forall p,
        In p (externalPharmacies s) ->
        selectedPharmacy s = Some (ph_id p) ->
        NoDup (map ph_id (externalPharmacies s)) ->
        selectedPharmacyData s = Some p
        /\ (dispensingMethod s <> internal ->
            processingFee s = processing_fee p
            /\ deliveryFee s = delivery_fee p
            /\ totalAmount s
               = fsum (map subtotal (prescriptionItems s))
                 + fsum (map amount (additionalCharges s))
                 + processing_fee p + delivery_fee p))
  /\ (forall before p after,
        externalPharmacies s = before ++ p :: after ->
        selectedPharmacy s = Some (ph_id p) ->
        (forall q, In q before -> ph_id q <> ph_id p) ->
        selectedPharmacyData s = Some p
        /\ (dispensingMethod s <> internal ->
            processingFee s = processing_fee p
            /\ deliveryFee s = delivery_fee p))
  /\ (forall i,
        selectedPharmacy s = Some i ->
        (forall q, In q (externalPharmacies s) -> ph_id q <> i) ->
        selectedPharmacyData s = None
        /\ processingFee s = 0 /\ deliveryFee s = 0).
Proof.
  assert (Hfound : forall p,
             selectedPharmacyData s = Some p ->
             dispensingMethod s <> internal ->
             processingFee s = processing_fee p
             /\ deliveryFee s = delivery_fee p).
  { intros p Hp Hm. unfold processingFee, deliveryFee. rewrite Hp.
    destruct (dispensingMethod s); [congruence| |]; simpl; auto. }
  assert (Hmissing : selectedPharmacyData s = None ->
                     processingFee s = 0 /\ deliveryFee s = 0).
  { intros Hp. unfold processingFee, deliveryFee. rewrite Hp.
    destruct (is_internal (dispensingMethod s)); simpl; auto. }
  split; [|split; [|split; [|split; [|split; [|split; [|split]]]]]].
  - unfold totalAmount.
    rewrite medicineTotal_fsum, additionalTotal_fsum. reflexivity.
  - intros p Hm Hp. destruct (selectedPharmacyData_some s p Hp) as [Hsel Hin].
    destruct (Hfound p Hp Hm). auto.
  - unfold processingFee, deliveryFee. intros [Hm|Hp].
    + rewrite Hm. simpl. auto.
    + apply Hmissing, Hp.
  - apply selectedPharmacyData_none.
  - simpl. split; [reflexivity|].
    unfold totalAmount. rewrite medicineTotal_fsum, additionalTotal_fsum.
    unfold processingFee, deliveryFee. simpl. auto.
  - intros p Hin Hsel Hids.
    pose proof (selectedPharmacyData_member s p Hin Hsel Hids) as Hp.
    split; [exact Hp|]. intros Hm. destruct (Hfound p Hp Hm) as [Hpf Hdf].
    split; [exact Hpf|]. split; [exact Hdf|].
    unfold totalAmount.
    rewrite medicineTotal_fsum, additionalTotal_fsum, Hpf, Hdf. reflexivity.
  - intros before p after Hlist Hsel Hbefore.
    pose proof (selectedPharmacyData_first s before p after Hlist Hsel Hbefore)
      as Hp.
    split; [exact Hp|]. intros Hm. apply (Hfound p Hp Hm).
  - intros i Hsel Hnone.
    pose proof (selectedPharmacyData_unknown s i Hsel Hnone) as Hp.
    split; [exact Hp|]. apply Hmissing, Hp.
Qed.

End Totals.

Lemma totalAmount_is_sum_witness :
  processingFee (Sample.bill external_decoction (Some 4)) = 15%float
  /\ deliveryFee (Sample.bill external_decoction (Some 4)) = 25%float
  /\ processingFee (Sample.bill internal (Some 4)) = 0%float
  /\ processingFee (Fixture.bill_two_pharmacies (Some 6)) = 30%float
  /\ deliveryFee (Fixture.bill_two_pharmacies (Some 6)) = 40%float
  /\ processingFee (Fixture.bill_two_pharmacies (Some 5)) = 0%float.
Proof.
  assert (Hids : NoDup (map ph_id [Sample.pharmacy; Fixture.second_pharmacy])).
  { repeat constructor; simpl; intuition discriminate. }
  split; [|split; [|split; [|split; [|split]]]].
  - destruct (totalAmount_is_sum (Sample.bill external_decoction (Some 4)))
      as [_ [Hfees _]].
    destruct (Hfees Sample.pharmacy) as [_ [_ [Hp _]]];
      [discriminate | reflexivity | exact Hp].
  - destruct (totalAmount_is_sum (Sample.bill external_decoction (Some 4)))
      as [_ [Hfees _]].
    destruct (Hfees Sample.pharmacy) as [_ [_ [_ Hd]]];
      [discriminate | reflexivity | exact Hd].
  - destruct (totalAmount_is_sum (Sample.bill internal (Some 4)))
      as [_ [_ [Hzero _]]].
    destruct Hzero as [Hp _]; [left; reflexivity | exact Hp].
  - destruct (totalAmount_is_sum (Fixture.bill_two_pharmacies (Some 6)))
      as [_ [_ [_ [_ [_ [Hmember _]]]]]].
    destruct (Hmember Fixture.second_pharmacy) as [_ Hfees];
      [right; left; reflexivity | reflexivity | exact Hids |].
    destruct Hfees as [Hp _]; [discriminate | exact Hp].
  - destruct (totalAmount_is_sum (Fixture.bill_two_pharmacies (Some 6)))
      as [_ [_ [_ [_ [_ [Hmember _]]]]]].
    destruct (Hmember Fixture.second_pharmacy) as [_ Hfees];
      [right; left; reflexivity | reflexivity | exact Hids |].
    destruct Hfees as [_ [Hd _]]; [discriminate | exact Hd].
  - destruct (totalAmount_is_sum (Fixture.bill_two_pharmacies (Some 5)))
      as [_ [_ [_ [_ [_ [_ [_ Hunknown]]]]]]].
    destruct (Hunknown 5) as [_ [Hp _]]; [reflexivity | | exact Hp].
    intros q [<-|[<-|[]]]; discriminate.
Defined.

(** The two worked totals of the fee aggregation: 55 under internal
    dispensing, 95 with the external pharmacy selected; and internal
    dispensing drops the fees while the selection stays. *)
Example totalAmount_examples :
  totalAmount (Sample.bill internal None) = 55%float
  /\ totalAmount (Sample.bill external_decoction (Some 4)) = 95%float
  /\ totalAmount
       (setDispensingMethod internal
          (Sample.bill external_decoction (Some 4))) = 55%float
  /\ totalAmount (Sample.bill external_decoction None) = 55%float.
Proof. vm_compute. repeat split. Qed.

(* ================================================================= *)
(** ** One line item per medicine id *)

Section Uniqueness.

Context {rt : JsRuntime}.

Lemma has_medicine_false_not_in i items :
  has_medicine i items = false -> ~ In i (item_ids items).
Proof.
  unfold has_medicine, item_ids.
  induction items as [|x t IH]; simpl; intros H; [tauto|].
  apply orb_false_iff in H. destruct H as [Hx Ht].
  intros [Heq|Hin]; [|exact (IH Ht Hin)].
  apply Z.eqb_neq in Hx. congruence.
Qed.

Lemma NoDup_snoc (l : list Z) (x : Z) :
  NoDup l -> ~ In x l -> NoDup (l ++ [x]).
Proof.
  intros Hl Hx. apply NoDup_app.
  - exact Hl.
  - constructor; [intros []|constructor].
  - intros y Hy [<-|[]]. exact (Hx Hy).
Qed.

Lemma NoDup_drop_nth (l : list Z) (i : nat) :
  NoDup l -> NoDup (firstn i l ++ skipn (S i) l).
Proof.
  intros Hl.
  destruct (Nat.lt_ge_cases i (List.length l)) as [Hlt|Hge].
  - destruct (nth_error l i) as [x|] eqn:Hnth.
    + apply (NoDup_remove_1 _ _ x).
      rewrite (firstn_skipn_middle i l Hnth). exact Hl.
    + apply nth_error_None in Hnth. lia.
  - rewrite firstn_all2 by lia. rewrite skipn_all2 by lia.
    rewrite app_nil_r. exact Hl.
Qed.

Lemma item_ids_set_nth item1 items :
  forall index item,
    nth_error items index = Some item ->
    medicine_id item1 = medicine_id item ->
    item_ids (set_nth index item1 items) = item_ids items.
Proof.
  unfold item_ids.
  induction items as [|h t IH]; intros [|i] item Hnth Hid; simpl in *;
    try discriminate.
  - injection Hnth as ->. rewrite Hid. reflexivity.
  - f_equal. exact (IH i item Hnth Hid).
Qed.

Lemma addMedicine_keeps_unique medicine s :
  NoDup (item_ids (prescriptionItems s)) ->
  NoDup (item_ids (prescriptionItems (addMedicine medicine s))).
Proof.
  intros Hu. destruct (add_rejected medicine s) eqn:Hr.
  - rewrite (addMedicine_rejected medicine s Hr). exact Hu.
  - destruct (addMedicine_accepted medicine s Hr) as [-> _].
    unfold item_ids. rewrite map_app. simpl.
    apply NoDup_snoc; [exact Hu|].
    apply has_medicine_false_not_in.
    unfold add_rejected in Hr. apply orb_false_iff in Hr. tauto.
Qed.

Lemma updateDosage_keeps_ids index d s s1 :
  updateDosage index d s = Some s1 ->
  item_ids (prescriptionItems s1) = item_ids (prescriptionItems s).
Proof.
  unfold updateDosage.
  destruct (nth_error (prescriptionItems s) index) as [item|] eqn:Hnth;
    [|discriminate].
  intros H. injection H as <-. simpl.
  apply (item_ids_set_nth _ _ index item Hnth). reflexivity.
Qed.

Lemma removeMedicine_keeps_unique index s :
  NoDup (item_ids (prescriptionItems s)) ->
  NoDup (item_ids (prescriptionItems (removeMedicine index s))).
Proof.
  intros Hu. rewrite removeMedicine_items.
  unfold item_ids in *. rewrite map_app, <- firstn_map, <- skipn_map.
  apply NoDup_drop_nth. exact Hu.
Qed.

Lemma selectPatient_clears b p s :
  prescriptionItems (fst (fst (selectPatient b p (s, [])))) = [].
Proof.
  unfold selectPatient, fetchPatientHistory, try_catch_finally, bind,
    modify, await, console_error, ret.
  destruct (p_allergies (patient p)) as [a|]; simpl.
  - destruct (truthy_string a); simpl;
      destruct (get_consultations b (p_id (patient p)) 10); reflexivity.
  - destruct (get_consultations b (p_id (patient p)) 10); reflexivity.
Qed.

(** Every operation on the list other than applying an experience formula
    keeps the medicine ids pairwise distinct. *)
Lemma step_keeps_unique a s :
  (forall formula, a <> ApplyExperienceFormula formula) ->
  NoDup (item_ids (prescriptionItems s)) ->
  NoDup (item_ids (prescriptionItems (step a s))).
Proof.
  intros Ha Hu. destruct a as [medicine|index d|index|formula|b p]; simpl.
  - apply addMedicine_keeps_unique, Hu.
  - destruct (updateDosage index d s) as [s1|] eqn:Hup; [|exact Hu].
    rewrite (updateDosage_keeps_ids index d s s1 Hup). exact Hu.
  - apply removeMedicine_keeps_unique, Hu.
  - destruct (Ha formula eq_refl).
  - rewrite selectPatient_clears. constructor.
Qed.

Lemma run_reachable actions :
  forall s, reachable s -> reachable (run actions s).
Proof.
  induction actions as [|a actions IH]; intros s Hs; simpl; [exact Hs|].
  apply IH. constructor. exact Hs.
Qed.

End Uniqueness.

(** C2 fails on the code.  Applying one experience formula twice from the
    initial state reaches a list with two line items for medicine 1;
    [applyExperienceFormula] appends without the duplicate check that
    [addMedicine] makes. *)
Theorem applyExperienceFormula_duplicates :
  let s :=
    run [ApplyExperienceFormula (Sample.formula [1]);
         ApplyExperienceFormula (Sample.formula [1])] initialState in
  reachable s
  /\ item_ids (prescriptionItems s) = [1; 1]
  /\ List.length
       (filter (fun item => Z.eqb (medicine_id item) 1) (prescriptionItems s))
     = 2%nat.
Proof.
  split; [apply run_reachable; constructor|].
  vm_compute. split; reflexivity.
Qed.

(* ================================================================= *)
(** ** The save sequence *)

Section Save.

Ltac run_save :=
  unfold save_state, save_calls, saveConsultation, fetchQueue,
    try_catch_finally, bind, modify, await, console_error, ret; simpl.

Lemma saveConsultation_no_registration b s :
  truthy_id (currentRegistrationId s) = false ->
  save_calls b s = []
  /\ save_state b s
     = addNotification
         {| n_type := NError; n_title := js "請先選擇病患";
            n_message := None |} s.
Proof.
  intros Hreg. run_save. rewrite Hreg. simpl. split; reflexivity.
Qed.

(** C4.  With a registration selected, if the consultation create is
    rejected, the save has issued that one call and nothing else (no
    prescription create, no registration complete), has raised exactly one
    notification, the fixed save-failed error, and has left the line items,
    the additional charges, the consultation form and every other cell as
    they were; only the [saving] flag is back to [false]. *)
Theorem saveConsultation_create_fails (b : Backend) (s : PageState)
  (Hreg : truthy_id (currentRegistrationId s) = true)
  (Hfail : post_consultations b (id_value (currentRegistrationId s))
             (consultationForm s) = None) :
  let failed :=
    {| n_type := NError; n_title := js "儲存失敗";
       n_message := Some (js "請檢查資料後重試") |} in
  save_calls b s
  = [PostConsultations (id_value (currentRegistrationId s))
       (consultationForm s)]
  /\ existsb is_prescription_create (save_calls b s) = false
  /\ existsb is_registration_complete (save_calls b s) = false
  /\ notifications (save_state b s) = notifications s ++ [failed]
  /\ prescriptionItems (save_state b s) = prescriptionItems s
  /\ additionalCharges (save_state b s) = additionalCharges s
  /\ consultationForm (save_state b s) = consultationForm s
  /\ save_state b s = addNotification failed (setSaving false s).
Proof.
  run_save. rewrite Hreg. simpl. rewrite Hfail. simpl.
  repeat split.
Qed.

(** C5 (as amended).  Without a truthy registration id ([null], or [0]) the
    save issues no call and raises the select-a-patient error.  With one and
    an empty line-item list, the save never issues a prescription create:
    it posts the consultation; if that succeeds it posts the registration
    complete; and if that succeeds too it re-fetches the queue. *)
Theorem saveConsultation_calls (b : Backend) (s : PageState) :
  (currentRegistrationId s = None ->
   save_calls b s = []
   /\ notifications (save_state b s)
      = notifications s ++
        [ {| n_type := NError; n_title := js "請先選擇病患";
             n_message := None |} ])
  /\ (truthy_id (currentRegistrationId s) = false -> save_calls b s = [])
  /\ (truthy_id (currentRegistrationId s) = true ->
      prescriptionItems s = [] ->
      let registration := id_value (currentRegistrationId s) in
      let create := PostConsultations registration (consultationForm s) in
      let complete := PostRegistrationComplete registration in
      existsb is_prescription_create (save_calls b s) = false
      /\ save_calls b s
         = match post_consultations b registration (consultationForm s) with
           | None => [create]
           | Some _ =>
             match post_registration_complete b registration with
             | None => [create; complete]
             | Some _ => [create; complete; GetRegistrationsQueue]
             end
           end).
Proof.
  split; [|split].
  - intros Hnull.
    destruct (saveConsultation_no_registration b s) as [Hcalls Hstate].
    { rewrite Hnull. reflexivity. }
    rewrite Hcalls, Hstate. split; reflexivity.
  - intros Hreg. apply (saveConsultation_no_registration b s Hreg).
  - intros Hreg Hempty. run_save. rewrite Hreg, Hempty. simpl.
    destruct (post_consultations b _ _) as [cid|]; simpl;
      [|split; reflexivity].
    destruct (post_registration_complete b _) as [[]|]; simpl;
      [|split; reflexivity].
    destruct (get_queue b) as [[waiting inConsultation]|]; simpl;
      split; reflexivity.
Qed.

End Save.

Lemma saveConsultation_create_fails_witness :
  save_calls Sample.backend_no_consultation
    (Sample.in_consultation [Sample.item 1 2%float 10%float])
  = [PostConsultations 7 emptyForm]
  /\ prescriptionItems
       (save_state Sample.backend_no_consultation
          (Sample.in_consultation [Sample.item 1 2%float 10%float]))
     = [Sample.item 1 2%float 10%float].
Proof.
  destruct (saveConsultation_create_fails Sample.backend_no_consultation
              (Sample.in_consultation [Sample.item 1 2%float 10%float])
              eq_refl eq_refl)
    as [Hcalls [_ [_ [_ [Hitems _]]]]].
  split; [exact Hcalls | exact Hitems].
Defined.

Lemma saveConsultation_calls_witness :
  save_calls Sample.backend_ok initialState = []
  /\ existsb is_prescription_create
       (save_calls Sample.backend_ok (Sample.in_consultation [])) = false.
Proof.
  split.
  - destruct (saveConsultation_calls Sample.backend_ok initialState)
      as [Hnull _].
    destruct (Hnull eq_refl) as [Hcalls _]. exact Hcalls.
  - destruct (saveConsultation_calls Sample.backend_ok
                (Sample.in_consultation [])) as [_ [_ Hempty]].
    destruct (Hempty eq_refl eq_refl) as [Hnone _]. exact Hnone.
Defined.

(** With registration 7 and no line items, a save whose consultation create
    is rejected makes one call, and a save on which everything succeeds
    makes three, the last being the queue re-fetch. *)
Lemma saveConsultation_not_two_calls :
  save_calls Sample.backend_no_consultation (Sample.in_consultation [])
  = [PostConsultations 7 emptyForm]
  /\ save_calls Sample.backend_ok (Sample.in_consultation [])
     = [PostConsultations 7 emptyForm; PostRegistrationComplete 7;
        GetRegistrationsQueue].
Proof. vm_compute. split; reflexivity. Qed.

Example saveConsultation_with_items :
  map (fun c => match c with
                | PostPrescriptions d =>
                  Some (pd_consultation d, map pl_medicine (pd_items d))
                | _ => None
                end)
      (save_calls Sample.backend_ok
         (Sample.in_consultation [Sample.item 1 2%float 10%float]))
  = [None; Some (31, [1]); None; None].
Proof. vm_compute. reflexivity. Qed.

(* ================================================================= *)
(** ** The 401 refresh interceptor *)

Section Refresh.

Variable net : Network.

#[local] Arguments api : simpl never.
#[local] Arguments js : simpl never.

Lemma requestInterceptor_keeps br config :
  url (requestInterceptor br config) = url config
  /\ body (requestInterceptor br config) = body config
  /\ _retry (requestInterceptor br config) = _retry config.
Proof.
  unfold requestInterceptor.
  destruct (truthy_ostring (access_token (localStorage br)));
    repeat split.
Qed.

Lemma api_S fuel config br :
  api net (S fuel) config br
  = match respond net (sent br) (requestInterceptor br config) with
    | inl response =>
      Some (send (Request (requestInterceptor br config)) br,
            Resolved response)
    | inr status =>
      responseInterceptor net (api net fuel)
        {| config := requestInterceptor br config;
           response_status := status |}
        (send (Request (requestInterceptor br config)) br)
    end.
Proof. reflexivity. Qed.

(** A request already marked as retried is sent once and its failure is
    handed back; no further call is nested in it. *)
Lemma api_marked fuel config br :
  _retry config = true ->
  api net (S fuel) config br
  = Some (send (Request (requestInterceptor br config)) br,
          match respond net (sent br) (requestInterceptor br config) with
          | inl response => Resolved response
          | inr status =>
            Rejected {| config := requestInterceptor br config;
                        response_status := status |}
          end).
Proof.
  intros Hmark. rewrite api_S.
  destruct (respond net (sent br) (requestInterceptor br config))
    as [response|status]; [reflexivity|].
  unfold responseInterceptor. simpl.
  destruct (requestInterceptor_keeps br config) as [_ [_ Hr]].
  rewrite Hr, Hmark, andb_false_r. reflexivity.
Qed.

(** The interceptor leaves alone an error that is not a 401 or whose
    request is already marked. *)
Lemma responseInterceptor_passes api_rec error br :
  (response_status error <> Some 401 \/ _retry (config error) = true) ->
  responseInterceptor net api_rec error br = Some (br, Rejected error).
Proof.
  intros H. unfold responseInterceptor.
  destruct (response_status error) as [st|] eqn:Hst; simpl.
  - destruct (Z.eqb_spec st 401) as [->|Hne]; simpl.
    + destruct H as [H|H]; [congruence|]. rewrite H. reflexivity.
    + reflexivity.
  - reflexivity.
Qed.

(** Nesting depth two is enough for every call of the client. *)
Lemma api_total fuel config br :
  exists result, api net (S (S fuel)) config br = Some result.
Proof.
  rewrite api_S.
  destruct (respond net (sent br) (requestInterceptor br config))
    as [response|status]; [eexists; reflexivity|].
  unfold responseInterceptor.
  destruct (_ && _); [|eexists; reflexivity].
  destruct (truthy_ostring _); [|eexists; reflexivity].
  destruct (refresh_answer net _ _) as [access|]; [|eexists; reflexivity].
  rewrite api_marked by reflexivity. eexists; reflexivity.
Qed.

(** C6 (as amended).  For a 401 failure of a request not yet marked as
    retried: with a non-empty refresh token in storage, the interceptor makes
    exactly one refresh post.  If it succeeds, the new access token is
    stored and the original request, now marked, is sent again exactly once
    with the new token as its bearer; what that retry yields is the result,
    a second 401 included.  If the refresh is rejected, both tokens are
    removed, the location is set to the login page and the original error
    is handed back.  With no refresh token in storage (or an empty one)
    nothing is sent and nothing is changed: the error is handed back. *)
Theorem responseInterceptor_refresh (fuel : nat) (error : AxiosError)
  (br : Browser)
  (H401 : response_status error = Some 401)
  (Hunmarked : _retry (config error) = false) :
  let marked :=
    {| url := url (config error); body := body (config error);
       authorization := authorization (config error); _retry := true |} in
  (forall token,
      refresh_token (localStorage br) = Some token ->
      truthy_string token = true ->
      match refresh_answer net (sent br) token with
      | Some access =>
        let retry :=
          {| url := url (config error); body := body (config error);
             authorization := Some (js "Bearer " ++ to_string access);
             _retry := true |} in
        exists br1 outcome,
          responseInterceptor net (api net (S fuel)) error br
          = Some (br1, outcome)
          /\ sent br1 = sent br ++ [TokenRefresh token; Request retry]
          /\ refresh_calls (sent br1) = S (refresh_calls (sent br))
          /\ access_token (localStorage br1) = Some (to_string access)
          /\ refresh_token (localStorage br1) = Some token
          /\ location_href br1 = location_href br
          /\ outcome
             = match respond net (sent br ++ [TokenRefresh token]) retry with
               | inl response => Resolved response
               | inr status =>
                 Rejected {| config := retry; response_status := status |}
               end
      | None =>
        responseInterceptor net (api net (S fuel)) error br
        = Some ({| localStorage :=
                     {| access_token := None; refresh_token := None |};
                   location_href := js "/login";
                   sent := sent br ++ [TokenRefresh token] |},
                Rejected {| config := marked; response_status := Some 401 |})
      end)
  /\ (truthy_ostring (refresh_token (localStorage br)) = false ->
      responseInterceptor net (api net (S fuel)) error br
      = Some (br, Rejected {| config := marked;
                              response_status := Some 401 |})).
Proof.
  intros marked. split.
  - intros token Hstored Hnonempty. unfold responseInterceptor.
    rewrite H401, Hunmarked, Hstored. simpl. rewrite Hnonempty.
    destruct (refresh_answer net (sent br) token) as [access|];
      [|reflexivity].
    set (retry := {| url := url (config error); body := body (config error);
                     authorization := Some (js "Bearer " ++ to_string access);
                     _retry := true |}).
    rewrite api_marked by reflexivity.
    assert (Hcfg : forall br2,
               access_token (localStorage br2) = Some (to_string access) ->
               requestInterceptor br2 retry = retry).
    { intros br2 Hacc. unfold requestInterceptor. rewrite Hacc. simpl.
      destruct (truthy_string (to_string access)); reflexivity. }
    rewrite Hcfg by reflexivity.
    eexists. eexists. split; [reflexivity|]. simpl.
    repeat split.
    + rewrite <- app_assoc. reflexivity.
    + unfold refresh_calls. rewrite <- app_assoc, filter_app, length_app.
      simpl. lia.
    + exact Hstored.
  - intros Hnone. unfold responseInterceptor.
    rewrite H401, Hunmarked, Hnone. reflexivity.
Qed.

End Refresh.

Lemma responseInterceptor_refresh_witness :
  option_map (fun r => sent (fst r))
    (responseInterceptor Sample.network_refreshing
       (api Sample.network_refreshing 1) Sample.unauthorized
       Sample.browser_with_tokens)
  = Some [Request Sample.request; TokenRefresh (js "r1");
          Request {| url := js "/patients/"; body := [];
                     authorization := Some (js "Bearer new");
                     _retry := true |}].
Proof.
  destruct (responseInterceptor_refresh Sample.network_refreshing 0
              Sample.unauthorized Sample.browser_with_tokens
              eq_refl eq_refl)
    as [Hrefresh _].
  destruct (Hrefresh (js "r1") eq_refl eq_refl)
    as [br1 [outcome [Hrun [Hsent _]]]].
  rewrite Hrun. simpl. rewrite Hsent. reflexivity.
Defined.

(** A 401 met while no refresh token is stored: no refresh post is made,
    the stale access token stays in storage and the location is not
    changed. *)
Lemma responseInterceptor_without_refresh_token :
  option_map fst
    (responseInterceptor Sample.network_refreshing
       (api Sample.network_refreshing 1) Sample.unauthorized
       Sample.browser_without_refresh)
  = Some Sample.browser_without_refresh
  /\ refresh_calls (sent Sample.browser_without_refresh) = 0%nat.
Proof. vm_compute. split; reflexivity. Qed.

Example responseInterceptor_refresh_refused :
  option_map fst
    (responseInterceptor Sample.network_refusing
       (api Sample.network_refusing 1) Sample.unauthorized
       Sample.browser_with_tokens)
  = Some {| localStorage :=
              {| access_token := None; refresh_token := None |};
            location_href := js "/login";
            sent := [Request Sample.request; TokenRefresh (js "r1")] |}.
Proof. vm_compute. reflexivity. Qed.

Example api_refreshes_and_retries :
  option_map snd
    (api Sample.network_refreshing 2 Sample.request
       {| localStorage :=
            {| access_token := Some (js "old");
               refresh_token := Some (js "r1") |};
          location_href := js "/consultation"; sent := [] |})
  = Some (Resolved {| r_status := 200; r_data := js "[]" |}).
Proof. vm_compute. reflexivity. Qed.

(* ================================================================= *)
(** ** Phone masking *)

Section Masking.

Lemma truthy_string_length (s : jsstring) :
  truthy_string s = negb (Nat.eqb (List.length s) 0).
Proof. destruct s; reflexivity. Qed.

(** Outside lengths 4 to 6 a result is returned: the input itself below
    length 4, a string of the same length from length 7 on. *)
Lemma maskPhone_returns (phone : jsstring) :
  ((List.length phone < 4)%nat -> maskPhone phone = Some phone)
  /\ ((7 <= List.length phone)%nat ->
      exists masked,
        maskPhone phone = Some masked
        /\ List.length masked = List.length phone).
Proof.
  unfold maskPhone, repeat. split.
  - intros Hlt. destruct (Nat.ltb_spec (List.length phone) 4); [|lia].
    rewrite orb_true_r. reflexivity.
  - intros Hge. rewrite truthy_string_length.
    destruct (Nat.eqb_spec (List.length phone) 0); [lia|].
    destruct (Nat.ltb_spec (List.length phone) 4); [lia|]. simpl.
    destruct (Z.ltb_spec (Z.of_nat (List.length phone) - 7) 0); [lia|].
    eexists. split; [reflexivity|].
    unfold slice, slice_last.
    rewrite !length_app, length_firstn, !length_skipn.
    assert (Hstars : forall count,
               List.length (List.concat (List.repeat (js "*") count))
               = count).
    { induction count as [|count IH]; simpl; [reflexivity|]. rewrite IH.
      reflexivity. }
    rewrite Hstars. lia.
Qed.

(** The id-card mask has the same guard and asks for [length - 4] stars, so
    it returns for every input. *)
Lemma maskIdCard_total (idCard : jsstring) :
  exists masked, maskIdCard idCard = Some masked.
Proof.
  unfold maskIdCard, repeat. rewrite truthy_string_length.
  destruct (Nat.eqb_spec (List.length idCard) 0); simpl;
    [eexists; reflexivity|].
  destruct (Nat.ltb_spec (List.length idCard) 4); [eexists; reflexivity|].
  destruct (Z.ltb_spec (Z.of_nat (List.length idCard) - 4) 0); [lia|].
  eexists; reflexivity.
Qed.

(** C10.  For a phone string of length 4, 5 or 6 the guard of [maskPhone]
    (empty, or shorter than 4) does not fire, the star count [length - 7] is
    negative, [repeat] throws its [RangeError] on it, and so [maskPhone]
    throws instead of returning a masked string. *)
Theorem maskPhone_throws (phone : jsstring)
  (Hlen : (4 <= List.length phone <= 6)%nat) :
  negb (truthy_string phone) || (List.length phone <? 4)%nat = false
  /\ Z.of_nat (List.length phone) - 7 < 0
  /\ repeat (js "*") (Z.of_nat (List.length phone) - 7) = None
  /\ maskPhone phone = None.
Proof.
  assert (Hguard : negb (truthy_string phone)
                   || (List.length phone <? 4)%nat = false).
  { rewrite truthy_string_length.
    destruct (Nat.eqb_spec (List.length phone) 0); [lia|].
    destruct (Nat.ltb_spec (List.length phone) 4); [lia|]. reflexivity. }
  assert (Hstars : repeat (js "*") (Z.of_nat (List.length phone) - 7) = None).
  { unfold repeat.
    destruct (Z.ltb_spec (Z.of_nat (List.length phone) - 7) 0); [|lia].
    reflexivity. }
  repeat split; try assumption; try lia.
  unfold maskPhone. rewrite Hguard, Hstars. reflexivity.
Qed.

End Masking.

Lemma maskPhone_throws_witness :
  maskPhone (js "12345") = None
  /\ maskPhone (js "1234") = None
  /\ maskPhone (js "123456") = None.
Proof.
  split; [|split].
  - apply (maskPhone_throws (js "12345")). simpl. lia.
  - apply (maskPhone_throws (js "1234")). simpl. lia.
  - apply (maskPhone_throws (js "123456")). simpl. lia.
Defined.

Example maskPhone_examples :
  maskPhone (js "0912345678") = Some (js "0912***678")
  /\ maskPhone (js "1234567") = Some (js "1234567")
  /\ maskPhone (js "123") = Some (js "123")
  /\ maskPhone [] = Some [].
Proof. vm_compute. repeat split. Qed.

(* ================================================================= *)
(** ** Formatting and masking of phone and id-card numbers *)

Section Formatting.

Lemma stars_repeat (count : nat) :
  List.concat (List.repeat (js "*") count) = List.repeat 42%N count.
Proof.
  induction count as [|count IH]; simpl; [reflexivity|].
  rewrite IH. reflexivity.
Qed.

Lemma skipn_exact {A} (l1 l2 : list A) (k : nat) :
  k = List.length l1 -> skipn k (l1 ++ l2) = l2.
Proof.
  intros ->. rewrite skipn_app, skipn_all, Nat.sub_diag. reflexivity.
Qed.

Lemma firstn_exact {A} (l1 l2 : list A) (k : nat) :
  k = List.length l1 -> firstn k (l1 ++ l2) = l1.
Proof.
  intros ->. rewrite firstn_app, firstn_all, Nat.sub_diag, firstn_O.
  apply app_nil_r.
Qed.

Lemma Forall_repeat_star (count : nat) :
  Forall is_star (List.repeat 42%N count).
Proof.
  induction count as [|count IH]; simpl; constructor; [reflexivity|exact IH].
Qed.

(** A mobile number, ten code units starting with 09, comes out as
    4-3-3 groups with a dash at positions 4 and 8, and dropping those two
    positions gives the input back.  Every other string is returned as it
    is, so formatting twice is formatting once. *)
Theorem formatPhone_groups (phone : jsstring) :
  (List.length phone = 10%nat ->
   startsWith phone (js "09") = true ->
   let shown := Utils.formatPhone phone in
   List.length shown = 12%nat
   /\ nth_error shown 4 = Some 45%N
   /\ nth_error shown 8 = Some 45%N
   /\ firstn 4 shown ++ firstn 3 (skipn 5 shown) ++ skipn 9 shown = phone)
  /\ (List.length phone <> 10%nat \/ startsWith phone (js "09") = false ->
      Utils.formatPhone phone = phone)
  /\ Utils.formatPhone (Utils.formatPhone phone) = Utils.formatPhone phone.
Proof.
  assert (Hten : List.length phone = 10%nat ->
                 startsWith phone (js "09") = true ->
                 exists a b c d e f g h i j,
                   phone = [a; b; c; d; e; f; g; h; i; j]
                   /\ Utils.formatPhone phone
                      = [a; b; c; d; 45%N; e; f; g; 45%N; h; i; j]).
  { intros Hlen Hstart.
    destruct phone as [|a [|b [|c [|d [|e [|f [|g [|h [|i [|j [|k rest]]]]]]]]]]];
      try discriminate.
    exists a, b, c, d, e, f, g, h, i, j. split; [reflexivity|].
    unfold Utils.formatPhone. rewrite Hstart. reflexivity. }
  assert (Hother : List.length phone <> 10%nat
                   \/ startsWith phone (js "09") = false ->
                   Utils.formatPhone phone = phone).
  { intros Hno. unfold Utils.formatPhone.
    destruct phone as [|a rest]; [reflexivity|]. simpl truthy_string.
    cbv beta iota. simpl negb. cbv iota.
    destruct (Nat.eqb_spec (List.length (a :: rest)) 10) as [Hlen|Hlen].
    - destruct Hno as [Hno|Hno]; [contradiction|]. rewrite Hno. reflexivity.
    - reflexivity. }
  split; [|split].
  - intros Hlen Hstart.
    destruct (Hten Hlen Hstart)
      as [a [b [c [d [e [f [g [h [i [j [-> Hshown]]]]]]]]]]].
    cbv zeta. rewrite Hshown. repeat split.
  - exact Hother.
  - destruct (Nat.eq_dec (List.length phone) 10) as [Hlen|Hlen].
    + destruct (bool_dec (startsWith phone (js "09")) true) as [Hstart|Hstart].
      * destruct (Hten Hlen Hstart)
          as [a [b [c [d [e [f [g [h [i [j [-> Hshown]]]]]]]]]]].
        rewrite Hshown. reflexivity.
      * apply not_true_is_false in Hstart.
        rewrite (Hother (or_intror Hstart)). apply Hother. right. exact Hstart.
    + rewrite (Hother (or_introl Hlen)). apply Hother. left. exact Hlen.
Qed.

Lemma formatPhone_groups_witness :
  Utils.formatPhone (js "0912345678") = js "0912-345-678".
Proof.
  destruct (formatPhone_groups (js "0912345678")) as [Hfmt _].
  destruct (Hfmt eq_refl eq_refl) as [_ [_ [_ Hback]]].
  vm_compute. reflexivity.
Defined.

(** The id-card mask returns for every input a string of the same length
    that shows the first two and the last two code units.  From length 4 on
    everything in between is a star; an id of fewer than four code units, and
    one of exactly four, is shown in full. *)
Theorem maskIdCard_shape (idCard : jsstring) :
  let n := List.length idCard in
  exists masked,
    maskIdCard idCard = Some masked
    /\ List.length masked = n
    /\ firstn 2 masked = firstn 2 idCard
    /\ skipn (n - 2) masked = skipn (n - 2) idCard
    /\ ((n <= 4)%nat -> masked = idCard)
    /\ ((4 <= n)%nat ->
        masked
        = firstn 2 idCard ++ List.repeat 42%N (n - 4) ++ skipn (n - 2) idCard
        /\ Forall is_star (firstn (n - 4) (skipn 2 masked))).
Proof.
  intros n.
  destruct (Nat.lt_ge_cases n 4) as [Hlt|Hge].
  - exists idCard. split.
    + unfold maskIdCard. fold n.
      destruct (Nat.ltb_spec n 4); [|lia].
      rewrite orb_true_r. reflexivity.
    + repeat split; intros; try reflexivity; lia.
  - assert (Hrun : maskIdCard idCard
                   = Some (firstn 2 idCard ++ List.repeat 42%N (n - 4)
                           ++ skipn (n - 2) idCard)).
    { unfold maskIdCard, repeat. rewrite truthy_string_length. fold n.
      destruct (Nat.eqb_spec n 0); [lia|].
      destruct (Nat.ltb_spec n 4); [lia|]. cbv [negb orb].
      destruct (Z.ltb_spec (Z.of_nat n - 4) 0); [lia|].
      replace (Z.to_nat (Z.of_nat n - 4)) with (n - 4)%nat by lia.
      rewrite stars_repeat. reflexivity. }
    assert (Hf : List.length (firstn 2 idCard) = 2%nat).
    { rewrite length_firstn. fold n. lia. }
    assert (Hmid : List.length (firstn 2 idCard ++ List.repeat 42%N (n - 4))
                   = (n - 2)%nat).
    { rewrite length_app, Hf, repeat_length. lia. }
    eexists. split; [exact Hrun|]. split; [|split; [|split; [|split]]].
    + rewrite !length_app, Hf, repeat_length, length_skipn. fold n. lia.
    + apply firstn_exact. symmetry. exact Hf.
    + rewrite app_assoc. apply skipn_exact. symmetry. exact Hmid.
    + intros Hle. assert (Hn : n = 4%nat) by lia. rewrite Hn.
      change (List.repeat 42%N (4 - 4)) with (@nil N).
      change (4 - 2)%nat with 2%nat. rewrite app_nil_l.
      apply firstn_skipn.
    + intros _. split; [reflexivity|].
      rewrite (skipn_exact _ _ 2) by (symmetry; exact Hf).
      rewrite firstn_exact by (symmetry; apply repeat_length).
      apply Forall_repeat_star.
Qed.

(** From length 7 on the phone mask keeps the first four and the last three
    code units and puts [length - 7] stars between them.  A seven-unit
    phone number therefore comes back unmasked. *)
Theorem maskPhone_shape (phone : jsstring)
  (Hlen : (7 <= List.length phone)%nat) :
  let n := List.length phone in
  maskPhone phone
  = Some (firstn 4 phone ++ List.repeat 42%N (n - 7) ++ skipn (n - 3) phone)
  /\ (n = 7%nat -> maskPhone phone = Some phone).
Proof.
  intros n.
  assert (Hshape : maskPhone phone
                   = Some (firstn 4 phone ++ List.repeat 42%N (n - 7)
                           ++ skipn (n - 3) phone)).
  { unfold maskPhone, repeat. rewrite truthy_string_length. fold n.
    destruct (Nat.eqb_spec n 0); [lia|].
    destruct (Nat.ltb_spec n 4); [lia|]. cbv [negb orb].
    destruct (Z.ltb_spec (Z.of_nat n - 7) 0); [lia|].
    replace (Z.to_nat (Z.of_nat n - 7)) with (n - 7)%nat by lia.
    rewrite stars_repeat. reflexivity. }
  split; [exact Hshape|].
  intros H7. rewrite Hshape, H7.
  change (List.repeat 42%N (7 - 7)) with (@nil N).
  change (7 - 3)%nat with 4%nat. rewrite app_nil_l, firstn_skipn.
  reflexivity.
Qed.

End Formatting.

Lemma maskPhone_shape_witness :
  maskPhone (js "1234567") = Some (js "1234567")
  /\ maskPhone (js "0912345678") = Some (js "0912***678").
Proof.
  split.
  - destruct (maskPhone_shape (js "1234567")) as [_ Hsame];
      [simpl; lia|].
    apply Hsame. reflexivity.
  - destruct (maskPhone_shape (js "0912345678")) as [Hshape _];
      [simpl; lia|].
    rewrite Hshape. reflexivity.
Defined.

(* ================================================================= *)
(** ** Age and display labels *)

Section AgeAndLabels.

Context {dr : Utils.DateRuntime} {o : Utils.ObjectRuntime}.

(** For a valid birth date, given as a [Date] or as a string that
    [parseISO] reads, the age is the number of birthdays passed: the
    birthday of that many years later is today or earlier, the next one is
    still to come.  Nothing clamps it, so a birth date after today gives a
    negative age.  The result is [0] for a missing value, for the empty
    string, for an invalid [Date], and for a string on which [parseISO]
    yields an invalid date or throws. *)
Theorem calculateAge_birthdays (today birth : Utils.DateFields) :
  let age := Utils.calculateAge today
               (Some (Utils.DateObject (Utils.ValidDate birth))) in
  on_or_before age birth today
  /\ ~ on_or_before (age + 1) birth today
  /\ (age < 0 <-> ~ on_or_before 0 birth today)
  /\ (forall s,
        Utils.parseISO s = Some (Utils.ValidDate birth) ->
        truthy_string s = true ->
        Utils.calculateAge today (Some (Utils.DateString s)) = age)
  /\ Utils.calculateAge today None = 0
  /\ Utils.calculateAge today (Some (Utils.DateString [])) = 0
  /\ Utils.calculateAge today (Some (Utils.DateObject Utils.InvalidDate)) = 0
  /\ (forall s,
        Utils.parseISO s = Some Utils.InvalidDate ->
        Utils.calculateAge today (Some (Utils.DateString s)) = 0)
  /\ (forall s,
        Utils.parseISO s = None ->
        Utils.calculateAge today (Some (Utils.DateString s)) = 0)
  /\ (forall s,
        Utils.calculateAge today (Some (Utils.DateString s))
        = if truthy_string s
          then match Utils.parseISO s with
               | Some d => Utils.calculateAge today (Some (Utils.DateObject d))
               | None => 0
               end
          else 0).
Proof.
  unfold on_or_before. simpl.
  destruct today as [ty tm td], birth as [by_ bm bd]. simpl.
  split; [|split; [|split; [|split]]].
  - destruct (Z.ltb_spec (tm - bm) 0); simpl; [lia|].
    destruct (Z.eqb_spec (tm - bm) 0); simpl; [|lia].
    destruct (Z.ltb_spec td bd); lia.
  - destruct (Z.ltb_spec (tm - bm) 0); simpl; [lia|].
    destruct (Z.eqb_spec (tm - bm) 0); simpl; [|lia].
    destruct (Z.ltb_spec td bd); lia.
  - destruct (Z.ltb_spec (tm - bm) 0); simpl; [lia|].
    destruct (Z.eqb_spec (tm - bm) 0); simpl; [|lia].
    destruct (Z.ltb_spec td bd); lia.
  - intros s Hparse Hs. rewrite Hs. simpl. rewrite Hparse. reflexivity.
  - split; [reflexivity|]. split; [reflexivity|]. split; [reflexivity|].
    split; [|split].
    + intros s Hparse. rewrite Hparse.
      destruct (truthy_string s); reflexivity.
    + intros s Hparse. rewrite Hparse.
      destruct (truthy_string s); reflexivity.
    + intros s. destruct (truthy_string s); simpl; [|reflexivity].
      destruct (Utils.parseISO s) as [[|d]|]; reflexivity.
Qed.

(** Of the three dispensing methods the workbench puts into a prescription,
    the label table knows two.  Its third key is spelled
    [external_concentrate], so [external_concentrated] is not found and is
    shown as the raw key. *)
Theorem getDispensingMethodDisplay_workbench_methods
  (m : DispensingMethod)
  (Hplain : Utils.onPrototype (methodKey m) = false) :
  Utils.getDispensingMethodDisplay (methodKey m)
  = Utils.OwnString
      match m with
      | internal => js "內部配藥"
      | external_decoction => js "外送煎藥"
      | external_concentrated => js "external_concentrated"
      end.
Proof.
  unfold Utils.getDispensingMethodDisplay, Utils.member_or_key, Utils.member.
  destruct m; try reflexivity.
  change (Utils.own_property _ (methodKey external_concentrated))
    with (@None jsstring).
  rewrite Hplain. reflexivity.
Qed.

End AgeAndLabels.

#[local] Existing Instance Fixture.dates.
#[local] Existing Instance Fixture.objects.

Lemma calculateAge_birthdays_witness :
  Utils.calculateAge
    {| Utils.fullYear := 2024; Utils.month := 4; Utils.date := 14 |}
    (Some (Utils.DateString (js "1990-05-15"))) = 33
  /\ Utils.calculateAge
       {| Utils.fullYear := 2024; Utils.month := 4; Utils.date := 15 |}
       (Some (Utils.DateString (js "1990-05-15"))) = 34
  /\ Utils.calculateAge
       {| Utils.fullYear := 2024; Utils.month := 4; Utils.date := 15 |}
       (Some (Utils.DateString (js "unknown"))) = 0.
Proof.
  split; [|split].
  3: {
    destruct (calculateAge_birthdays
                {| Utils.fullYear := 2024; Utils.month := 4;
                   Utils.date := 15 |}
                {| Utils.fullYear := 1990; Utils.month := 4;
                   Utils.date := 15 |})
      as [_ [_ [_ [_ [_ [_ [_ [Hinvalid _]]]]]]]].
    apply Hinvalid. reflexivity. }
  - destruct (calculateAge_birthdays
                {| Utils.fullYear := 2024; Utils.month := 4;
                   Utils.date := 14 |}
                {| Utils.fullYear := 1990; Utils.month := 4;
                   Utils.date := 15 |})
      as [_ [_ [_ [Hstr _]]]].
    rewrite (Hstr (js "1990-05-15") eq_refl eq_refl). reflexivity.
  - destruct (calculateAge_birthdays
                {| Utils.fullYear := 2024; Utils.month := 4;
                   Utils.date := 15 |}
                {| Utils.fullYear := 1990; Utils.month := 4;
                   Utils.date := 15 |})
      as [_ [_ [_ [Hstr _]]]].
    rewrite (Hstr (js "1990-05-15") eq_refl eq_refl). reflexivity.
Defined.

Lemma getDispensingMethodDisplay_workbench_methods_witness :
  Utils.getDispensingMethodDisplay (js "external_concentrated")
  = Utils.OwnString (js "external_concentrated")
  /\ Utils.getDispensingMethodDisplay (js "external_decoction")
     = Utils.OwnString (js "外送煎藥").
Proof.
  split.
  - apply (getDispensingMethodDisplay_workbench_methods
             external_concentrated).
    reflexivity.
  - apply (getDispensingMethodDisplay_workbench_methods external_decoction).
    reflexivity.
Defined.

(* ================================================================= *)
(** ** Stores *)

Section Stores.

Lemma jsstring_eqb_eq (a b : jsstring) : jsstring_eqb a b = true <-> a = b.
Proof.
  revert b. induction a as [|x a IH]; intros [|y b]; simpl;
    try (split; [discriminate | discriminate]); [tauto|].
  unfold code_unit_eqb. rewrite andb_true_iff, N.eqb_eq, IH.
  split; [intros [-> ->]; reflexivity | intros H; injection H; auto].
Qed.

Lemma filter_keeps_all {A} (f : A -> bool) (l : list A) :
  (forall x, In x l -> f x = true) -> filter f l = l.
Proof.
  induction l as [|x t IH]; simpl; intros H; [reflexivity|].
  rewrite (H x (or_introl eq_refl)). f_equal. apply IH. auto.
Qed.

Lemma filter_idempotent {A} (f : A -> bool) (l : list A) :
  filter f (filter f l) = filter f l.
Proof.
  apply filter_keeps_all. intros x Hx. apply filter_In in Hx. tauto.
Qed.

(** [removeFromQueue] drops every entry with the id and nothing else, keeps
    the current number, and is idempotent; adding an entry under an id not
    in the queue and removing that id gives the queue back. *)
Theorem removeFromQueue_effect (id : Z) (st : Store.QueueState) :
  let st1 := Store.removeFromQueue id st in
  (forall item,
      In item (Store.queue st1)
      <-> In item (Store.queue st) /\ Store.qi_id item <> id)
  /\ Store.currentNumber st1 = Store.currentNumber st
  /\ Store.removeFromQueue id st1 = st1
  /\ (forall item,
        Store.qi_id item = id ->
        (forall other, In other (Store.queue st) -> Store.qi_id other <> id) ->
        Store.removeFromQueue id (Store.addToQueue item st) = st).
Proof.
  destruct st as [q cur]. unfold Store.removeFromQueue, Store.addToQueue.
  simpl. split; [|split; [|split]].
  - intros item. rewrite filter_In, negb_true_iff, Z.eqb_neq. tauto.
  - reflexivity.
  - rewrite filter_idempotent. reflexivity.
  - intros item Hid Hfresh. f_equal.
    rewrite filter_app. simpl.
    rewrite Hid, Z.eqb_refl. simpl. rewrite app_nil_r.
    apply filter_keeps_all. intros other Hin.
    apply negb_true_iff, Z.eqb_neq, Hfresh, Hin.
Qed.

(** [updateQueueItem] keeps the length and the positions: every entry with
    the id becomes the entry overlaid with the update's fields, every other
    entry stays.  An update without fields changes nothing, an update on an
    id that was just removed changes nothing, and when the update leaves
    the id alone, removing the id afterwards is the same as removing it
    straight away. *)
Theorem updateQueueItem_effect (id : Z) (updates : Store.QueueItemUpdates)
  (st : Store.QueueState) :
  let st1 := Store.updateQueueItem id updates st in
  List.length (Store.queue st1) = List.length (Store.queue st)
  /\ (forall i item,
        nth_error (Store.queue st) i = Some item ->
        nth_error (Store.queue st1) i
        = Some (if Z.eqb (Store.qi_id item) id
                then Store.spread item updates else item))
  /\ Store.updateQueueItem id Fixture.no_updates st = st
  /\ Store.updateQueueItem id updates (Store.removeFromQueue id st)
     = Store.removeFromQueue id st
  /\ (Store.up_id updates = None ->
      Store.removeFromQueue id st1 = Store.removeFromQueue id st).
Proof.
  destruct st as [q cur].
  unfold Store.updateQueueItem, Store.removeFromQueue. simpl.
  split; [|split; [|split; [|split]]].
  - apply length_map.
  - intros i item Hnth. rewrite nth_error_map, Hnth. reflexivity.
  - f_equal. induction q as [|x t IH]; simpl; [reflexivity|].
    rewrite IH. destruct (Z.eqb (Store.qi_id x) id); [|reflexivity].
    destruct x; reflexivity.
  - f_equal. induction q as [|x t IH]; simpl; [reflexivity|].
    destruct (Z.eqb (Store.qi_id x) id) eqn:Hx; simpl; [exact IH|].
    rewrite Hx, IH. reflexivity.
  - intros Hkeep. f_equal. induction q as [|x t IH]; simpl; [reflexivity|].
    destruct (Z.eqb (Store.qi_id x) id) eqn:Hx; simpl.
    + unfold Store.spread at 1. simpl. rewrite Hkeep. simpl. rewrite Hx.
      simpl. exact IH.
    + rewrite Hx. simpl. rewrite IH. reflexivity.
Qed.

(** The removal timer of a notification is set to the given duration, and
    to 5000 ms when none is given or it is [0].  When the timer fires, the
    notification is gone, and with it every older notification that got the
    same id; with an id not in use the list is what it was before the
    notification came. *)
Theorem addNotification_timer (id : jsstring)
  (n_type : NotificationType) (title : jsstring) (message : option jsstring)
  (duration : option number) (st : Store.NotificationState) :
  let added := Store.addNotification id n_type title message duration st in
  (forall n, In n (Store.timer_fires id (fst added))
             <-> In n st /\ Store.nt_id n <> id)
  /\ ((forall n, In n st -> Store.nt_id n <> id) ->
      Store.timer_fires id (fst added) = st)
  /\ (duration = None \/ duration = Some 0%float -> snd added = 5000%float)
  /\ (forall d, duration = Some d -> truthy_number d = true -> snd added = d).
Proof.
  unfold Store.addNotification, Store.timer_fires. simpl.
  assert (Hlast : filter
                    (fun n => negb (jsstring_eqb (Store.nt_id n) id))
                    (st ++
                     [ {| Store.nt_id := id; Store.nt_type := n_type;
                          Store.nt_title := title;
                          Store.nt_message := message;
                          Store.nt_duration := duration |} ])
                  = filter
                      (fun n => negb (jsstring_eqb (Store.nt_id n) id)) st).
  { rewrite filter_app. simpl.
    assert (Hid : jsstring_eqb id id = true) by (apply jsstring_eqb_eq; auto).
    rewrite Hid. simpl. apply app_nil_r. }
  rewrite Hlast. split; [|split; [|split]].
  - intros n. rewrite filter_In, negb_true_iff.
    split; intros [Hin Hne]; split; try exact Hin.
    + intros Heq. apply jsstring_eqb_eq in Heq. congruence.
    + destruct (jsstring_eqb (Store.nt_id n) id) eqn:He; [|reflexivity].
      apply jsstring_eqb_eq in He. contradiction.
  - intros Hfresh. apply filter_keeps_all. intros n Hin.
    apply negb_true_iff.
    destruct (jsstring_eqb (Store.nt_id n) id) eqn:He; [|reflexivity].
    apply jsstring_eqb_eq in He. destruct (Hfresh n Hin He).
  - intros [->| ->]; reflexivity.
  - intros d -> Hd. rewrite Hd. reflexivity.
Qed.

(** Tokens set by [setTokens] are the ones in [localStorage], and a request
    made then carries the access token as its bearer, also after
    [setUser(null)], which only drops the user.  After [logout] no token is
    left in the store or in [localStorage], a request is passed on as it
    was configured, and a 401 on it is handed back without any refresh. *)
Theorem session_tokens (access refresh : jsstring) (st : Store.AuthState)
  (config : RequestConfig) (href : jsstring) (log : list NetCall)
  (Haccess : truthy_string access = true) :
  let browser_of (a : Store.AuthState) : Browser :=
    {| localStorage := Store.auth_storage a;
       location_href := href; sent := log |} in
  let signed_in := Store.setTokens access refresh st in
  let signed_out := Store.logout signed_in in
  Store.isAuthenticated signed_in = true
  /\ access_token (Store.auth_storage signed_in)
     = Store.accessToken signed_in
  /\ refresh_token (Store.auth_storage signed_in)
     = Store.refreshToken signed_in
  /\ authorization (requestInterceptor (browser_of signed_in) config)
     = Some (js "Bearer " ++ access)
  /\ Store.isAuthenticated (Store.setUser None signed_in) = false
  /\ authorization
       (requestInterceptor (browser_of (Store.setUser None signed_in)) config)
     = Some (js "Bearer " ++ access)
  /\ signed_out
     = Store.initialAuth {| access_token := None; refresh_token := None |}
  /\ requestInterceptor (browser_of signed_out) config = config
  /\ forall net fuel status,
       exists error,
         responseInterceptor net (api net fuel)
           {| config := config; response_status := status |}
           (browser_of signed_out)
         = Some (browser_of signed_out, Rejected error)
         /\ response_status error = status.
Proof.
  simpl. unfold requestInterceptor. simpl. rewrite Haccess.
  repeat split.
  intros net fuel status. unfold responseInterceptor. simpl.
  destruct (match status with Some st0 => st0 =? 401 | None => false end
            && negb (_retry config));
    eexists; split; reflexivity.
Qed.

End Stores.

Lemma session_tokens_witness :
  authorization
    (requestInterceptor
       {| localStorage :=
            Store.auth_storage
              (Store.setTokens (js "a1") (js "r1")
                 (Store.initialAuth
                    {| access_token := None; refresh_token := None |}));
          location_href := js "/dashboard"; sent := [] |}
       Sample.request)
  = Some (js "Bearer a1").
Proof.
  destruct (session_tokens (js "a1") (js "r1")
              (Store.initialAuth
                 {| access_token := None; refresh_token := None |})
              Sample.request (js "/dashboard") [] eq_refl)
    as [_ [_ [_ [Hheader _]]]].
  exact Hheader.
Defined.

Example removeFromQueue_and_update :
  map Store.qi_status
    (Store.queue
       (Store.updateQueueItem 2 (Fixture.status_update "in_consultation")
          {| Store.queue :=
               [Fixture.queue_item 1 "waiting";
                Fixture.queue_item 2 "waiting"];
             Store.currentNumber := 2 |}))
  = [js "waiting"; js "in_consultation"]
  /\ map Store.qi_id
       (Store.queue
          (Store.removeFromQueue 1
             {| Store.queue :=
                  [Fixture.queue_item 1 "waiting";
                   Fixture.queue_item 2 "waiting";
                   Fixture.queue_item 1 "completed"];
                Store.currentNumber := 2 |}))
     = [2].
Proof. vm_compute. split; reflexivity. Qed.

(* ================================================================= *)
(** ** Calls of the API client *)

Section ApiCalls.

Variable net : Network.

#[local] Arguments api : simpl never.
#[local] Arguments js : simpl never.

Lemma refresh_calls_app (l1 l2 : list NetCall) :
  refresh_calls (l1 ++ l2) = (refresh_calls l1 + refresh_calls l2)%nat.
Proof. unfold refresh_calls. rewrite filter_app, length_app. reflexivity. Qed.

(** What a call does after its first response was a failure: the cases of
    the response interceptor, the retry written out. *)
Lemma responseInterceptor_cases fuel (error : AxiosError) (br : Browser) :
  let marked :=
    {| url := url (config error); body := body (config error);
       authorization := authorization (config error); _retry := true |} in
  let token := to_string (refresh_token (localStorage br)) in
  responseInterceptor net (api net (S fuel)) error br
  = if match response_status error with
       | Some st => st =? 401
       | None => false
       end && negb (_retry (config error))
    then
      if truthy_ostring (refresh_token (localStorage br)) then
        match refresh_answer net (sent br) token with
        | Some access =>
          let retry :=
            {| url := url (config error); body := body (config error);
               authorization := Some (js "Bearer " ++ to_string access);
               _retry := true |} in
          let br2 :=
            {| localStorage :=
                 {| access_token := Some (to_string access);
                    refresh_token := refresh_token (localStorage br) |};
               location_href := location_href br;
               sent := sent br ++ [TokenRefresh token; Request retry] |} in
          Some (br2,
                match respond net (sent br ++ [TokenRefresh token]) retry with
                | inl response => Resolved response
                | inr status =>
                  Rejected {| config := retry; response_status := status |}
                end)
        | None =>
          Some ({| localStorage :=
                     {| access_token := None; refresh_token := None |};
                   location_href := js "/login";
                   sent := sent br ++ [TokenRefresh token] |},
                Rejected {| config := marked;
                            response_status := response_status error |})
        end
      else Some (br, Rejected {| config := marked;
                                 response_status := response_status error |})
    else Some (br, Rejected error).
Proof.
  intros marked token. unfold responseInterceptor.
  destruct (_ && _); [|reflexivity].
  destruct (truthy_ostring (refresh_token (localStorage br))) eqn:Htok;
    [|reflexivity].
  fold token.
  destruct (refresh_answer net (sent br) token) as [access|]; [|reflexivity].
  rewrite api_marked by reflexivity.
  set (retry := {| url := url (config error); body := body (config error);
                   authorization := Some (js "Bearer " ++ to_string access);
                   _retry := true |}).
  assert (Hcfg : forall br2,
             access_token (localStorage br2) = Some (to_string access) ->
             requestInterceptor br2 retry = retry).
  { intros br2 Hacc. unfold requestInterceptor. rewrite Hacc. simpl.
    destruct (truthy_string (to_string access)); reflexivity. }
  rewrite Hcfg by reflexivity.
  unfold send. simpl. rewrite <- app_assoc. reflexivity.
Qed.

(** One call of the client sends the request once or twice and asks for a
    token refresh at most once, and only between the two sends; it never
    loops, whatever the server answers.  The nesting bound of the model is
    immaterial from two on. *)
Theorem api_effort (fuel : nat) (config : RequestConfig) (br : Browser) :
  exists br1 outcome extra,
    api net (S (S fuel)) config br = Some (br1, outcome)
    /\ api net 2 config br = Some (br1, outcome)
    /\ sent br1 = sent br ++ extra
    /\ (1 <= request_calls extra <= 2)%nat
    /\ (refresh_calls extra <= 1)%nat
    /\ (request_calls extra = 2%nat -> refresh_calls extra = 1%nat)
    /\ (_retry config = true -> extra = [Request (requestInterceptor br config)]).
Proof.
  assert (Hrun : forall f,
             exists br1 outcome extra,
               api net (S (S f)) config br = Some (br1, outcome)
               /\ api net 2 config br = Some (br1, outcome)
               /\ sent br1 = sent br ++ extra
               /\ (1 <= request_calls extra <= 2)%nat
               /\ (refresh_calls extra <= 1)%nat
               /\ (request_calls extra = 2%nat -> refresh_calls extra = 1%nat)
               /\ (_retry config = true ->
                   extra = [Request (requestInterceptor br config)])).
  { intros f. rewrite !api_S.
    destruct (respond net (sent br) (requestInterceptor br config))
      as [response|status].
    - eexists. eexists. exists [Request (requestInterceptor br config)].
      repeat split; cbn; intros; try lia; try discriminate; reflexivity.
    - rewrite !responseInterceptor_cases. cbn [Api.config Api.response_status].
      destruct (requestInterceptor_keeps br config) as [_ [_ Hr]].
      destruct (match status with Some st => st =? 401 | None => false end
                && negb (_retry (requestInterceptor br config))) eqn:Hc.
      + assert (Hun : _retry config = false).
        { apply andb_true_iff in Hc. destruct Hc as [_ Hc].
          rewrite Hr in Hc. destruct (_retry config); [discriminate|].
          reflexivity. }
        destruct (truthy_ostring _).
        * destruct (refresh_answer net _ _) as [access|].
          -- eexists. eexists. eexists.
             split; [reflexivity|]. split; [reflexivity|].
             split; [cbn [sent send]; rewrite <- app_assoc; reflexivity|].
             cbn. repeat split; intros; try lia; congruence.
          -- eexists. eexists. eexists.
             split; [reflexivity|]. split; [reflexivity|].
             split; [cbn [sent send]; rewrite <- app_assoc; reflexivity|].
             cbn. repeat split; intros; try lia; congruence.
        * eexists. eexists. exists [Request (requestInterceptor br config)].
          repeat split; cbn; intros; try lia; try discriminate; reflexivity.
      + eexists. eexists. exists [Request (requestInterceptor br config)].
        repeat split; cbn; intros; try lia; try discriminate; reflexivity. }
  apply Hrun.
Qed.

(** A call changes the stored tokens and the location in one of two ways
    only: a refresh that succeeded replaced the access token and left the
    refresh token and the location alone, or a refresh that was refused
    removed both tokens and set the location to the login page, the call
    being rejected.  Otherwise both are as before.  The refresh token is
    never overwritten. *)
Theorem api_storage (fuel : nat) (config : RequestConfig)
  (br br1 : Browser) (outcome : Outcome)
  (Hrun : api net (S (S fuel)) config br = Some (br1, outcome)) :
  (localStorage br1 = localStorage br
   /\ location_href br1 = location_href br
   /\ refresh_calls (sent br1) = refresh_calls (sent br))
  \/ (exists access,
        localStorage br1
        = {| access_token := Some access;
             refresh_token := refresh_token (localStorage br) |}
        /\ location_href br1 = location_href br
        /\ refresh_calls (sent br1) = S (refresh_calls (sent br)))
  \/ (localStorage br1 = {| access_token := None; refresh_token := None |}
      /\ location_href br1 = js "/login"
      /\ refresh_calls (sent br1) = S (refresh_calls (sent br))
      /\ exists error, outcome = Rejected error).
Proof.
  rewrite api_S in Hrun.
  destruct (respond net (sent br) (requestInterceptor br config))
    as [response|status].
  - injection Hrun as <- _. left. cbn [send localStorage location_href sent].
    rewrite refresh_calls_app. cbn. repeat split. lia.
  - rewrite responseInterceptor_cases in Hrun.
    cbn [Api.config Api.response_status] in Hrun.
    destruct (_ && _).
    + destruct (truthy_ostring _).
      * destruct (refresh_answer net _ _) as [access|].
        -- injection Hrun as <- _. right. left. exists (to_string access).
           cbn [send localStorage location_href sent].
           rewrite <- app_assoc, !refresh_calls_app. cbn. repeat split. lia.
        -- injection Hrun as <- <-. right. right.
           cbn [send localStorage location_href sent].
           rewrite <- app_assoc, !refresh_calls_app. cbn.
           repeat split; [lia|]. eexists. reflexivity.
      * injection Hrun as <- _. left.
        cbn [send localStorage location_href sent].
        rewrite refresh_calls_app. cbn. repeat split. lia.
    + injection Hrun as <- _. left.
      cbn [send localStorage location_href sent].
      rewrite refresh_calls_app. cbn. repeat split. lia.
Qed.

(** A response that is a success, or a failure other than a 401 (a failure
    without response included), ends the call: one request sent, no refresh,
    tokens and location untouched, and the server's answer handed on. *)
Theorem api_single_request (fuel : nat) (config : RequestConfig)
  (br : Browser)
  (Hanswer : match respond net (sent br) (requestInterceptor br config) with
             | inl _ => True
             | inr status => status <> Some 401
             end) :
  api net (S fuel) config br
  = Some (send (Request (requestInterceptor br config)) br,
          match respond net (sent br) (requestInterceptor br config) with
          | inl response => Resolved response
          | inr status =>
            Rejected {| config := requestInterceptor br config;
                        response_status := status |}
          end).
Proof.
  rewrite api_S.
  destruct (respond net (sent br) (requestInterceptor br config))
    as [response|status]; [reflexivity|].
  apply responseInterceptor_passes. left. exact Hanswer.
Qed.

End ApiCalls.

Lemma api_storage_witness :
  exists br1 outcome,
    api Sample.network_refusing 2 Sample.request Sample.browser_with_tokens
    = Some (br1, outcome)
    /\ localStorage br1 = {| access_token := None; refresh_token := None |}
    /\ location_href br1 = js "/login".
Proof.
  destruct (api_total Sample.network_refusing 0 Sample.request
              Sample.browser_with_tokens) as [[br1 outcome] Hrun].
  exists br1, outcome. split; [exact Hrun|].
  destruct (api_storage Sample.network_refusing 0 Sample.request
              Sample.browser_with_tokens br1 outcome Hrun)
    as [[Hsame _]|[[access [Hacc _]]|[Hcleared [Hhref _]]]].
  - exfalso. revert Hrun Hsame. vm_compute. intros H. injection H as <- _.
    discriminate.
  - exfalso. revert Hrun Hacc. vm_compute. intros H. injection H as <- _.
    discriminate.
  - split; [exact Hcleared | exact Hhref].
Defined.

Lemma api_single_request_witness :
  option_map (fun r => sent (fst r))
    (api Sample.network_refreshing 1
       {| url := js "/patients/"; body := [];
          authorization := Some (js "Bearer new"); _retry := false |}
       {| localStorage := {| access_token := None; refresh_token := None |};
          location_href := js "/patients"; sent := [] |})
  = Some [Request {| url := js "/patients/"; body := [];
                     authorization := Some (js "Bearer new");
                     _retry := false |}].
Proof.
  rewrite (api_single_request Sample.network_refreshing 0).
  - reflexivity.
  - exact I.
Defined.

(* ================================================================= *)
(** ** Selecting a patient *)

Section SelectPatient.

(** Selecting a patient never throws and makes one call, the history
    fetch for that patient with limit 10.  It empties the line items and
    the additional charges, goes back to internal dispensing with no
    pharmacy selected and an empty form, so the total is [0], and makes the
    queue entry's id the current registration.  The allergy warning comes up
    exactly when the patient has a non-empty allergy text.  The history
    records are replaced only when the fetch succeeds: when it fails, the
    records of the patient selected before stay in place. *)
Theorem selectPatient_resets (b : Backend) (p : QueuePatient)
  (s : PageState) (log : list ApiCall) :
  let result := selectPatient b p (s, log) in
  let s1 := fst (fst result) in
  snd result = Some tt
  /\ snd (fst result) = log ++ [GetConsultations (p_id (patient p)) 10]
  /\ prescriptionItems s1 = []
  /\ additionalCharges s1 = []
  /\ dispensingMethod s1 = internal
  /\ selectedPharmacy s1 = None
  /\ consultationForm s1 = emptyForm
  /\ totalAmount s1 = 0%float
  /\ currentRegistrationId s1 = Some (q_id p)
  /\ option_map cp_id (currentPatient s1) = Some (p_id (patient p))
  /\ showAllergyWarning s1
     = (truthy_ostring (p_allergies (patient p)) || showAllergyWarning s)
  /\ historyRecords s1
     = match get_consultations b (p_id (patient p)) 10 with
       | Some records => records
       | None => historyRecords s
       end
  /\ loadingHistory s1 = false
  /\ notifications s1 = notifications s.
Proof.
  unfold selectPatient, fetchPatientHistory, try_catch_finally, bind,
    modify, await, console_error, ret.
  destruct (p_allergies (patient p)) as [a|]; simpl.
  - destruct (truthy_string a); simpl;
      destruct (get_consultations b (p_id (patient p)) 10); simpl;
      repeat split.
  - destruct (get_consultations b (p_id (patient p)) 10); simpl;
      repeat split.
Qed.

End SelectPatient.

Example selectPatient_keeps_stale_history :
  let stale :=
    {| h_id := 5; h_date := js "2024-01-01"; h_chief_complaint := js "cough";
       h_tcm_diagnosis := js "wind-cold"; h_prescription_count := 1 |} in
  let down :=
    {| get_queue := None; get_external_pharmacies := None;
       get_consultations := fun _ _ => None;
       post_consultations := fun _ _ => None;
       post_prescriptions := fun _ => None;
       post_registration_complete := fun _ => None |} in
  historyRecords
    (fst (fst (selectPatient down (Fixture.queue_patient 8 None)
                 (setHistoryRecords [stale] initialState, []))))
  = [stale].
Proof. vm_compute. reflexivity. Qed.

(* ================================================================= *)
(** ** Outcomes of a save *)

Section SaveOutcomes.

Ltac unfold_save :=
  unfold save_state, save_calls, saveConsultation, fetchQueue,
    try_catch_finally, bind, modify, await, console_error, ret; simpl.

Lemma nonempty_length_positive {A} (l : list A) :
  l <> [] -> (0 <? List.length l)%nat = true.
Proof. destruct l; [congruence | reflexivity]. Qed.

Lemma save_failure_state (b : Backend) (s : PageState) :
  truthy_id (currentRegistrationId s) = true ->
  currentRegistrationId (save_state b s) <> None ->
  save_state b s
  = addNotification
      {| n_type := NError; n_title := js "儲存失敗";
         n_message := Some (js "請檢查資料後重試") |}
      (setSaving false s).
Proof.
  unfold_save. intros Hreg. rewrite Hreg. simpl.
  destruct (post_consultations b _ _) as [cid|]; simpl; [|reflexivity].
  destruct (0 <? List.length (prescriptionItems s))%nat; simpl.
  - destruct (post_prescriptions b _) as [[]|]; simpl; [|reflexivity].
    destruct (post_registration_complete b _) as [[]|]; simpl;
      [|reflexivity].
    destruct (get_queue b) as [[w i]|]; simpl; intros H; destruct H;
      reflexivity.
  - destruct (post_registration_complete b _) as [[]|]; simpl;
      [|reflexivity].
    destruct (get_queue b) as [[w i]|]; simpl; intros H; destruct H;
      reflexivity.
Qed.

(** With a registration selected, a save goes through its calls in order
    and stops at the first one the backend turns down: every call before the
    last was accepted.  If the run got as far as the queue re-fetch, every
    step went through: the registration-complete call was made and
    accepted, the current patient and registration, the line items, the
    additional charges and the history records are cleared, one success
    notification is raised, and a second save right away is refused without
    any call; the consultation form, the dispensing method and the selected
    pharmacy are not reset by the save.  Otherwise the last call, the
    consultation create, the prescription create or the registration
    complete, was turned down, and then the state is the one before the
    save, with the save-failed notification added and [saving] off, and the
    queue is not fetched again. *)
Theorem saveConsultation_all_or_nothing (b : Backend) (s : PageState)
  (Hreg : truthy_id (currentRegistrationId s) = true) :
  let s1 := save_state b s in
  exists front final,
    save_calls b s = front ++ [final]
    /\ existsb (rejected b) front = false
    /\ hd_error (save_calls b s)
       = Some (PostConsultations (id_value (currentRegistrationId s))
                 (consultationForm s))
    /\ ((final = GetRegistrationsQueue
         /\ In (PostRegistrationComplete
                  (id_value (currentRegistrationId s))) front
         /\ (prescriptionItems s <> [] ->
             existsb is_prescription_create front = true)
         /\ currentRegistrationId s1 = None
         /\ currentPatient s1 = None
         /\ prescriptionItems s1 = []
         /\ additionalCharges s1 = []
         /\ historyRecords s1 = []
         /\ saving s1 = false
         /\ consultationForm s1 = consultationForm s
         /\ dispensingMethod s1 = dispensingMethod s
         /\ selectedPharmacy s1 = selectedPharmacy s
         /\ notifications s1
            = notifications s ++
              [ {| n_type := NSuccess; n_title := js "診療記錄已儲存";
                   n_message := Some (js "病患已完成診療") |} ]
         /\ existsb is_registration_complete (save_calls b s) = true
         /\ save_calls b s1 = [])
        \/ (final <> GetRegistrationsQueue
            /\ rejected b final = true
            /\ s1 = addNotification
                      {| n_type := NError; n_title := js "儲存失敗";
                         n_message := Some (js "請檢查資料後重試") |}
                      (setSaving false s)
            /\ ~ In GetRegistrationsQueue (save_calls b s))).
Proof.
  intros s1.
  assert (Hsecond : currentRegistrationId s1 = None -> save_calls b s1 = []).
  { intros Hnone. apply (saveConsultation_no_registration b s1).
    rewrite Hnone. reflexivity. }
  revert Hsecond. subst s1. unfold_save. rewrite Hreg. simpl.
  destruct (post_consultations b _ _) as [cid|] eqn:Hcreate; simpl.
  2: { intros _. exists (@nil ApiCall), (PostConsultations
                               (id_value (currentRegistrationId s))
                               (consultationForm s)).
       split; [reflexivity|]. split; [reflexivity|]. split; [reflexivity|].
       right. simpl. rewrite Hcreate.
       repeat split; try discriminate. intuition discriminate. }
  destruct (prescriptionItems s) as [|item items] eqn:Hitems; simpl.
  - destruct (post_registration_complete b _) as [[]|] eqn:Hcomplete; simpl.
    + destruct (get_queue b) as [[waiting inConsultation]|]; simpl;
        intros Hsecond;
        (eexists (_ :: _ :: nil), GetRegistrationsQueue;
         split; [reflexivity|]; simpl; rewrite Hcreate, Hcomplete;
         split; [reflexivity|]; split; [reflexivity|]; left;
         repeat split; try (apply Hsecond; reflexivity);
         try (right; left; reflexivity); congruence).
    + intros _. eexists (_ :: nil), (PostRegistrationComplete _).
      split; [reflexivity|]. simpl. rewrite Hcreate, Hcomplete.
      split; [reflexivity|]. split; [reflexivity|]. right.
      repeat split; try discriminate. intuition discriminate.
  - destruct (post_prescriptions b _) as [[]|] eqn:Hprescription; simpl.
    + destruct (post_registration_complete b _) as [[]|] eqn:Hcomplete;
        simpl.
      * destruct (get_queue b) as [[waiting inConsultation]|]; simpl;
          intros Hsecond;
          (eexists (_ :: _ :: _ :: nil), GetRegistrationsQueue;
           split; [reflexivity|]; simpl;
           rewrite Hcreate, Hprescription, Hcomplete;
           split; [reflexivity|]; split; [reflexivity|]; left;
           repeat split; try (apply Hsecond; reflexivity);
           try (right; right; left; reflexivity)).
      * intros _. eexists (_ :: _ :: nil), (PostRegistrationComplete _).
        split; [reflexivity|]. simpl.
        rewrite Hcreate, Hprescription, Hcomplete.
        split; [reflexivity|]. split; [reflexivity|]. right.
        repeat split; try discriminate. intuition discriminate.
    + intros _. eexists (_ :: nil), (PostPrescriptions _).
      split; [reflexivity|]. simpl. rewrite Hcreate, Hprescription.
      split; [reflexivity|]. split; [reflexivity|]. right.
      repeat split; try discriminate. intuition discriminate.
Qed.

(** When the consultation was created but the save did not complete (the
    prescription create or the registration complete failed), nothing
    records the created consultation: the state is the one before the save
    plus the error notification, no call undoes the create, and a retry,
    whatever the backend does then, starts by posting the same consultation
    again. *)
Theorem saveConsultation_retry_reposts (b b2 : Backend) (s : PageState)
  (cid : Z)
  (Hreg : truthy_id (currentRegistrationId s) = true)
  (Hcreated : post_consultations b (id_value (currentRegistrationId s))
                (consultationForm s) = Some cid)
  (Hfailed : currentRegistrationId (save_state b s) <> None) :
  let create :=
    PostConsultations (id_value (currentRegistrationId s))
      (consultationForm s) in
  hd_error (save_calls b s) = Some create
  /\ currentConsultationId (save_state b s) = currentConsultationId s
  /\ save_state b s
     = addNotification
         {| n_type := NError; n_title := js "儲存失敗";
            n_message := Some (js "請檢查資料後重試") |}
         (setSaving false s)
  /\ hd_error (save_calls b2 (save_state b s)) = Some create.
Proof.
  intros create.
  assert (Hstate : save_state b s
                   = addNotification
                       {| n_type := NError; n_title := js "儲存失敗";
                          n_message := Some (js "請檢查資料後重試") |}
                       (setSaving false s)).
  { apply save_failure_state; assumption. }
  split; [|split; [|split]].
  - unfold_save. rewrite Hreg. simpl. rewrite Hcreated. simpl.
    destruct (0 <? List.length (prescriptionItems s))%nat; simpl.
    + destruct (post_prescriptions b _) as [[]|]; simpl; [|reflexivity].
      destruct (post_registration_complete b _) as [[]|]; simpl;
        [|reflexivity].
      destruct (get_queue b) as [[w i]|]; reflexivity.
    + destruct (post_registration_complete b _) as [[]|]; simpl;
        [|reflexivity].
      destruct (get_queue b) as [[w i]|]; reflexivity.
  - rewrite Hstate. reflexivity.
  - exact Hstate.
  - rewrite Hstate. subst create. unfold_save. rewrite Hreg. simpl.
    destruct (post_consultations b2 _ _) as [cid2|]; simpl; [|reflexivity].
    destruct (0 <? List.length (prescriptionItems s))%nat; simpl.
    + destruct (post_prescriptions b2 _) as [[]|]; simpl; [|reflexivity].
      destruct (post_registration_complete b2 _) as [[]|]; simpl;
        [|reflexivity].
      destruct (get_queue b2) as [[w i]|]; reflexivity.
    + destruct (post_registration_complete b2 _) as [[]|]; simpl;
        [|reflexivity].
      destruct (get_queue b2) as [[w i]|]; reflexivity.
Qed.

(** With line items on the list and the consultation created, the second
    call is the prescription create.  Its payload names the consultation id
    the first call returned, lists the items one for one in order with their
    medicine id, dosage, unit and unit price, and carries each of the four
    prescription settings under its own key (name, total doses, doses per
    day, days) and the dispensing method.  The selected pharmacy goes along
    only under an external method with a pharmacy selected; under internal
    dispensing it is left out even when one is selected, and under an
    external method it is left out when none is selected. *)
Theorem saveConsultation_prescription_payload (b : Backend) (s : PageState)
  (cid : Z)
  (Hreg : truthy_id (currentRegistrationId s) = true)
  (Hitems : prescriptionItems s <> [])
  (Hcreated : post_consultations b (id_value (currentRegistrationId s))
                (consultationForm s) = Some cid) :
  exists data rest,
    save_calls b s
    = PostConsultations (id_value (currentRegistrationId s))
        (consultationForm s)
      :: PostPrescriptions data :: rest
    /\ pd_consultation data = cid
    /\ map pl_medicine (pd_items data) = item_ids (prescriptionItems s)
    /\ map pl_dosage (pd_items data) = map dosage (prescriptionItems s)
    /\ map pl_unit (pd_items data) = map unit (prescriptionItems s)
    /\ map pl_unit_price (pd_items data)
       = map unit_price (prescriptionItems s)
    /\ pd_name data = ps_name (prescriptionSettings s)
    /\ pd_total_doses data = total_doses (prescriptionSettings s)
    /\ pd_dispensing_method data = dispensingMethod s
    /\ (dispensingMethod s = internal -> pd_external_pharmacy data = None)
    /\ (dispensingMethod s <> internal ->
        truthy_id (selectedPharmacy s) = true ->
        pd_external_pharmacy data = selectedPharmacy s)
    /\ pd_doses_per_day data = doses_per_day (prescriptionSettings s)
    /\ pd_days data = days (prescriptionSettings s)
    /\ List.length (pd_items data) = List.length (prescriptionItems s)
    /\ (truthy_id (selectedPharmacy s) = false ->
        pd_external_pharmacy data = None).
Proof.
  unfold_save. rewrite Hreg. simpl. rewrite Hcreated. simpl.
  rewrite (nonempty_length_positive _ Hitems). simpl.
  assert (Hpharmacy :
            (dispensingMethod s = internal ->
             (if negb (is_internal (dispensingMethod s))
                 && truthy_id (selectedPharmacy s)
              then selectedPharmacy s else None) = None)
            /\ (dispensingMethod s <> internal ->
                truthy_id (selectedPharmacy s) = true ->
                (if negb (is_internal (dispensingMethod s))
                    && truthy_id (selectedPharmacy s)
                 then selectedPharmacy s else None) = selectedPharmacy s)
            /\ (truthy_id (selectedPharmacy s) = false ->
                (if negb (is_internal (dispensingMethod s))
                    && truthy_id (selectedPharmacy s)
                 then selectedPharmacy s else None) = None)).
  { split; [|split].
    - intros ->. reflexivity.
    - intros Hm Hsel. rewrite Hsel.
      destruct (dispensingMethod s); [congruence| |]; reflexivity.
    - intros ->. rewrite andb_false_r. reflexivity. }
  destruct Hpharmacy as [Hinternal [Hexternal Hunselected]].
  destruct (post_prescriptions b _) as [[]|]; simpl;
    [destruct (post_registration_complete b _) as [[]|]; simpl;
     [destruct (get_queue b) as [[w i]|]; simpl|]|];
    (eexists; eexists; split; [reflexivity|]; simpl;
     unfold item_ids; rewrite !map_map, ?length_map; simpl;
     repeat split; assumption).
Qed.

End SaveOutcomes.

Lemma saveConsultation_all_or_nothing_witness :
  prescriptionItems
    (save_state Fixture.backend_prescription_refused
       (Sample.in_consultation [Sample.item 1 2%float 10%float]))
  = [Sample.item 1 2%float 10%float]
  /\ prescriptionItems
       (save_state Sample.backend_ok
          (Sample.in_consultation [Sample.item 1 2%float 10%float]))
     = [].
Proof.
  split.
  - destruct (saveConsultation_all_or_nothing
                Fixture.backend_prescription_refused
                (Sample.in_consultation [Sample.item 1 2%float 10%float])
                eq_refl)
      as [front [final [Hcalls [_ [_ [[_ [Hcomplete _]]|[_ [_ [Hstate _]]]]]]]]].
    + exfalso.
      assert (Hin : In (PostRegistrationComplete 7)
                       (save_calls Fixture.backend_prescription_refused
                          (Sample.in_consultation
                             [Sample.item 1 2%float 10%float]))).
      { rewrite Hcalls. apply in_or_app. left. exact Hcomplete. }
      revert Hin. vm_compute. intuition discriminate.
    + rewrite Hstate. reflexivity.
  - destruct (saveConsultation_all_or_nothing Sample.backend_ok
                (Sample.in_consultation [Sample.item 1 2%float 10%float])
                eq_refl)
      as [front [final [_ [_ [_ [[_ [_ [_ [_ [_ [Hitems _]]]]]]
                               |[_ [_ [_ Hnone]]]]]]]]].
    + exact Hitems.
    + exfalso. apply Hnone. vm_compute. right. right. right. left.
      reflexivity.
Defined.

Lemma saveConsultation_retry_reposts_witness :
  hd_error
    (save_calls Sample.backend_ok
       (save_state Fixture.backend_no_complete
          (Sample.in_consultation [Sample.item 1 2%float 10%float])))
  = Some (PostConsultations 7 emptyForm).
Proof.
  assert (Hfailed : currentRegistrationId
                      (save_state Fixture.backend_no_complete
                         (Sample.in_consultation
                            [Sample.item 1 2%float 10%float])) <> None)
    by (vm_compute; discriminate).
  destruct (saveConsultation_retry_reposts Fixture.backend_no_complete
              Sample.backend_ok
              (Sample.in_consultation [Sample.item 1 2%float 10%float])
              31 eq_refl eq_refl Hfailed) as [_ [_ [_ Hretry]]].
  exact Hretry.
Defined.

Lemma saveConsultation_prescription_payload_witness :
  exists data rest,
    save_calls Sample.backend_ok
      (setSelectedPharmacy (Some 4)
         (Sample.in_consultation [Sample.item 1 2%float 10%float]))
    = PostConsultations 7 emptyForm :: PostPrescriptions data :: rest
    /\ pd_consultation data = 31
    /\ pd_external_pharmacy data = None
    /\ pd_doses_per_day data = 3
    /\ pd_days data = 7.
Proof.
  assert (Hitems : prescriptionItems
                     (setSelectedPharmacy (Some 4)
                        (Sample.in_consultation
                           [Sample.item 1 2%float 10%float])) <> [])
    by discriminate.
  destruct (saveConsultation_prescription_payload Sample.backend_ok
              (setSelectedPharmacy (Some 4)
                 (Sample.in_consultation [Sample.item 1 2%float 10%float]))
              31 eq_refl Hitems eq_refl)
    as [data [rest [Hcalls [Hcid [_ [_ [_ [_ [_ [_ [_ [Hinternal
         [_ [Hperday [Hdays _]]]]]]]]]]]]]]].
  exists data, rest. split; [exact Hcalls|]. split; [exact Hcid|].
  split; [apply Hinternal; reflexivity|].
  split; [exact Hperday|exact Hdays].
Defined.

(* ================================================================= *)
(** ** Additional charges, and what a NaN does to the total *)

Section BinaryFloats.

Import Floats.

#[local] Open Scope float_scope.

Lemma add_nan_r (x : float) : x + nan = nan.
Proof.
  rewrite <- (SF2Prim_Prim2SF (x + nan)), add_spec.
  change (Prim2SF nan) with S754_nan.
  unfold SF64add, SFadd.
  destruct (Prim2SF x) as [sx|sx| |sx mx ex]; try destruct sx; reflexivity.
Qed.

Lemma add_nan_l (x : float) : nan + x = nan.
Proof.
  rewrite <- (SF2Prim_Prim2SF (nan + x)), add_spec.
  change (Prim2SF nan) with S754_nan. reflexivity.
Qed.

Lemma is_nan_nan (x : float) : is_nan x = true -> x = nan.
Proof.
  unfold is_nan. rewrite FloatAxioms.eqb_spec. intros H.
  rewrite <- (SF2Prim_Prim2SF x).
  destruct (Prim2SF x) as [sx|sx| |sx mx ex]; try reflexivity; exfalso.
  - destruct sx; discriminate.
  - destruct sx; discriminate.
  - unfold SFeqb, SFcompare in H.
    destruct sx; rewrite Z.compare_refl, Pos.compare_cont_refl in H;
      discriminate.
Qed.

Lemma fold_add_nan {A} (f : A -> float) (l : list A) :
  fold_left (fun sum item => sum + f item) l nan = nan.
Proof.
  induction l as [|x t IH]; simpl; [reflexivity|].
  rewrite add_nan_l. exact IH.
Qed.

Lemma fold_add_with_nan {A} (f : A -> float) (l : list A) (x : A) :
  In x l -> is_nan (f x) = true ->
  forall acc, fold_left (fun sum item => sum + f item) l acc = nan.
Proof.
  intros Hin Hnan. induction l as [|y t IH]; [destruct Hin|].
  intros acc. simpl. destruct Hin as [->|Hin].
  - rewrite (is_nan_nan _ Hnan), add_nan_r. apply fold_add_nan.
  - apply IH. exact Hin.
Qed.

End BinaryFloats.

Section Charges.

Context {rt : JsRuntime}.

#[local] Open Scope float_scope.

Lemma Forall_filter_from {A} (P : A -> Prop) (keep : A -> nat -> bool)
  (l : list A) :
  Forall P l -> forall k, Forall P (filter_from k keep l).
Proof.
  induction 1 as [|x t Hx Ht IH]; intros k; simpl; [constructor|].
  destruct (keep x k); [constructor; [exact Hx|]|]; apply IH.
Qed.

(** A charge is added exactly when the name is non-empty and the parsed
    amount does not satisfy [amount <= 0]; it then goes to the end of the
    list with that name and amount, and in every other case the list stays
    as it is.  So every charge on the list has a non-empty name and an
    amount that is not [<= 0], and removing charges keeps that. *)
Theorem addAdditionalCharge_admits (name amountStr : option jsstring)
  (index : nat) (s : PageState) :
  let amount := parseFloat (amount_text amountStr) in
  additionalCharges (addAdditionalCharge name amountStr s)
  = (if truthy_ostring name && negb (amount <=? 0)
     then additionalCharges s ++
          [ {| charge_name := to_string name; amount := amount |} ]
     else additionalCharges s)
  /\ prescriptionItems (addAdditionalCharge name amountStr s)
     = prescriptionItems s
  /\ (Forall admitted_charge (additionalCharges s) ->
      Forall admitted_charge
        (additionalCharges (addAdditionalCharge name amountStr s))
      /\ Forall admitted_charge
           (additionalCharges (removeAdditionalCharge index s))).
Proof.
  intros amount. unfold addAdditionalCharge. fold (amount_text amountStr).
  fold amount.
  destruct name as [name|]; simpl; [|repeat split; auto;
    apply Forall_filter_from; assumption].
  destruct (truthy_string name) eqn:Hname; simpl;
    [|repeat split; auto; apply Forall_filter_from; assumption].
  destruct (amount <=? 0) eqn:Hle; simpl;
    [repeat split; auto; apply Forall_filter_from; assumption|].
  repeat split.
  - apply Forall_app. split; [assumption|].
    constructor; [|constructor]. split; assumption.
  - apply Forall_filter_from. assumption.
Qed.

(** An amount text that [parseFloat] turns into [NaN] is not turned away:
    the charge is added with amount [NaN].  And a [NaN] among the charge
    amounts or among the line-item subtotals makes the whole total [NaN]. *)
Theorem nan_reaches_total (s : PageState) :
  (forall name amountStr,
      truthy_string name = true ->
      is_nan (parseFloat (amount_text amountStr)) = true ->
      additionalCharges (addAdditionalCharge (Some name) amountStr s)
      = additionalCharges s ++
        [ {| charge_name := name; amount := PrimFloat.nan |} ]
      /\ totalAmount (addAdditionalCharge (Some name) amountStr s)
         = PrimFloat.nan)
  /\ (forall c, In c (additionalCharges s) -> is_nan (amount c) = true ->
      totalAmount s = PrimFloat.nan)
  /\ (forall item, In item (prescriptionItems s) ->
      is_nan (subtotal item) = true ->
      totalAmount s = PrimFloat.nan).
Proof.
  assert (Hcharge : forall s0 c,
             In c (additionalCharges s0) -> is_nan (amount c) = true ->
             totalAmount s0 = PrimFloat.nan).
  { intros s0 c Hin Hnan. unfold totalAmount, additionalTotal.
    rewrite (fold_add_with_nan amount _ c Hin Hnan).
    rewrite add_nan_r, !add_nan_l. reflexivity. }
  split; [|split].
  - intros name amountStr Hname Hnan.
    assert (Hadded : additionalCharges
                       (addAdditionalCharge (Some name) amountStr s)
                     = additionalCharges s ++
                       [ {| charge_name := name;
                            amount := PrimFloat.nan |} ]).
    { unfold addAdditionalCharge. rewrite Hname. simpl.
      fold (amount_text amountStr).
      rewrite (is_nan_nan _ Hnan). reflexivity. }
    split; [exact Hadded|].
    apply (Hcharge _ {| charge_name := name; amount := PrimFloat.nan |}).
    + rewrite Hadded. apply in_or_app. right. left. reflexivity.
    + reflexivity.
  - apply Hcharge.
  - intros item Hin Hnan. unfold totalAmount, medicineTotal.
    rewrite (fold_add_with_nan subtotal _ item Hin Hnan).
    rewrite !add_nan_l. reflexivity.
Qed.

End Charges.

Lemma addAdditionalCharge_admits_witness :
  map amount
    (additionalCharges
       (addAdditionalCharge (Some (js "acupuncture")) (Some (js "150"))
          initialState))
  = [150%float]
  /\ additionalCharges
       (addAdditionalCharge (Some (js "acupuncture")) None initialState)
     = [].
Proof.
  split.
  - destruct (addAdditionalCharge_admits (Some (js "acupuncture"))
                (Some (js "150")) 0 initialState) as [Hadd _].
    rewrite Hadd. vm_compute. reflexivity.
  - destruct (addAdditionalCharge_admits (Some (js "acupuncture"))
                None 0 initialState) as [Hadd _].
    rewrite Hadd. vm_compute. reflexivity.
Defined.

Lemma nan_reaches_total_witness :
  totalAmount
    (addAdditionalCharge (Some (js "acupuncture")) (Some (js "abc"))
       (Sample.bill internal None))
  = PrimFloat.nan.
Proof.
  destruct (nan_reaches_total (Sample.bill internal None)) as [Hadd _].
  destruct (Hadd (js "acupuncture") (Some (js "abc")) eq_refl eq_refl)
    as [_ Htotal].
  exact Htotal.
Defined.

(* ================================================================= *)
(** ** Indices, appends and the medicine total *)

Section ListEdges.

Context {rt : JsRuntime}.

#[local] Open Scope float_scope.

(** Row indices are positions in the current list.  An index past the end
    makes [removeMedicine] do nothing and [updateDosage] throw; and after a
    removal the later rows have moved up, so removing at the same index
    again takes out the row that followed. *)
Theorem removeMedicine_stale_index (index : nat) (s : PageState) :
  let items := prescriptionItems s in
  ((List.length items <= index)%nat ->
   prescriptionItems (removeMedicine index s) = items
   /\ forall d, updateDosage index d s = None)
  /\ prescriptionItems (removeMedicine index (removeMedicine index s))
     = firstn index items ++ skipn (S (S index)) items.
Proof.
  intros items. split.
  - intros Hout. split.
    + unfold removeMedicine, filter_indexed. simpl.
      apply filter_from_out_of_range. exact Hout.
    + intros d. apply updateDosage_out_of_range. exact Hout.
  - rewrite !removeMedicine_items. fold items.
    destruct (Nat.le_gt_cases (List.length items) index) as [Hout|Hin].
    + rewrite (firstn_all2 items) by exact Hout.
      rewrite (skipn_all2 items (n := S index)) by lia.
      rewrite (skipn_all2 items (n := S (S index))) by lia.
      rewrite !app_nil_r.
      rewrite firstn_all2 by exact Hout.
      rewrite skipn_all2 by lia. apply app_nil_r.
    + assert (Hf : List.length (firstn index items) = index).
      { rewrite length_firstn. lia. }
      rewrite firstn_app, Hf, Nat.sub_diag, firstn_O, app_nil_r.
      rewrite firstn_firstn, Nat.min_id.
      rewrite skipn_app, Hf.
      rewrite (skipn_all2 (firstn index items)) by lia.
      replace (S index - index)%nat with 1%nat by lia.
      rewrite skipn_skipn. reflexivity.
Qed.

(** An accepted add puts the medicine last, raises the medicine total by
    exactly the new unit price and leaves the other parts of the total
    alone; removing the last row right after gives the old list back. *)
Theorem addMedicine_total (medicine : Medicine) (s : PageState)
  (Hok : add_rejected medicine s = false) :
  let price := or_zero (parseFloat (selling_price medicine)) in
  medicineTotal (addMedicine medicine s) = medicineTotal s + price
  /\ totalAmount (addMedicine medicine s)
     = medicineTotal s + price + additionalTotal s
       + processingFee s + deliveryFee s
  /\ prescriptionItems
       (removeMedicine (List.length (prescriptionItems s))
          (addMedicine medicine s))
     = prescriptionItems s.
Proof.
  intros price.
  destruct (addMedicine_accepted medicine s Hok) as [Hitems _].
  assert (Hmed : medicineTotal (addMedicine medicine s)
                 = medicineTotal s + price).
  { unfold medicineTotal. rewrite Hitems, fold_left_app. reflexivity. }
  assert (Hrest : additionalTotal (addMedicine medicine s)
                  = additionalTotal s
                  /\ processingFee (addMedicine medicine s) = processingFee s
                  /\ deliveryFee (addMedicine medicine s) = deliveryFee s).
  { destruct (add_rejected_false medicine s Hok) as [Hfind Hguard].
    unfold addMedicine. rewrite Hfind, Hguard.
    destruct (currentPatient s) as [cp|]; [|repeat split].
    destruct (cp_allergies cp) as [a|]; [|repeat split].
    destruct (truthy_string a); [|repeat split].
    destruct (includes _ _); repeat split. }
  destruct Hrest as [Ha [Hp Hd]].
  split; [exact Hmed|]. split.
  - unfold totalAmount. rewrite Hmed, Ha, Hp, Hd. reflexivity.
  - rewrite removeMedicine_items, Hitems.
    rewrite firstn_app, firstn_all, Nat.sub_diag, firstn_O, app_nil_r.
    rewrite skipn_all2; [apply app_nil_r|].
    rewrite length_app. simpl. lia.
Qed.

(** Starting from a list with one line item per medicine id, any sequence
    of adds, dosage updates, removals and patient selections keeps it that
    way; only applying a formula can bring in a second item for an id. *)
Theorem unique_ids_without_formula (actions : list Action) (s : PageState)
  (Hactions : Forall not_formula actions)
  (Hunique : NoDup (item_ids (prescriptionItems s))) :
  NoDup (item_ids (prescriptionItems (run actions s))).
Proof.
  revert s Hunique. induction Hactions as [|a actions Ha _ IH];
    intros s Hunique; simpl; [exact Hunique|].
  apply IH. apply step_keeps_unique; [|exact Hunique].
  intros formula ->. exact Ha.
Qed.

End ListEdges.

Lemma addMedicine_total_witness :
  medicineTotal
    (addMedicine (Sample.medicine 3 "ginseng" "12" 5%float)
       (Sample.bill internal None))
  = 47%float.
Proof.
  destruct (addMedicine_total (Sample.medicine 3 "ginseng" "12" 5%float)
              (Sample.bill internal None) eq_refl) as [Hmed _].
  rewrite Hmed. vm_compute. reflexivity.
Defined.

Lemma unique_ids_without_formula_witness :
  NoDup
    (item_ids
       (prescriptionItems
          (run [AddMedicine (Sample.medicine 1 "aspirin" "12" 5%float);
                AddMedicine (Sample.medicine 1 "aspirin" "12" 5%float);
                AddMedicine (Sample.medicine 2 "ginseng" "12" 5%float);
                UpdateDosage 0 3%float; RemoveMedicine 1]
             initialState))).
Proof.
  apply unique_ids_without_formula.
  - repeat constructor.
  - constructor.
Defined.
